(** * HEMCO configuration parsers: a shallow embedding and its properties

    The four converters under [utils/python/HemcoConfigParsers]
    ([config2yaml.py] and its twin [Convert_HemcoConfig2yaml.py],
    [convert_diag2yaml.py], [spec2yaml.py], [grid2yaml.py]) each read a text
    file with [readlines] and fold a loop body over the lines.  Every loop
    body is embedded here as a step function on an explicit parser state;
    Python exceptions are values of an error monad.  A [str] is a [string]
    whose characters are the code points below 256; dicts are finite maps,
    the order of their keys plays no part in what is proved. *)

From Stdlib Require Import String Ascii List Bool Arith Lia.
From stdpp Require Import base option gmap strings.

Local Open Scope string_scope.
Local Open Scope list_scope.

(** ** Python strings *)

Module Py.

(** Exceptions the parsers can raise. *)
Inductive exn : Type :=
| IndexError
| KeyError (k : string)
| AttributeError
| ValueError.

Inductive result (A : Type) : Type :=
| Ok (a : A)
| Raise (e : exn).
Arguments Ok {A} a.
Arguments Raise {A} e.

#[global] Instance result_ret : MRet result := fun _ a => Ok a.
#[global] Instance result_bind : MBind result := fun _ _ f m =>
  match m with
  | Ok a => f a
  | Raise e => Raise e
  end.

(** [str.isspace] on one character.  CPython uses the same predicate
    ([Py_UNICODE_ISSPACE]) for [str.split()], [str.strip()] and the regular
    expression class [\s]; on the code points below 256 it holds of
    9..13, 28..32, 133 and 160. *)
Definition isspace (c : ascii) : bool :=
  let n := nat_of_ascii c in
  (((9 <=? n) && (n <=? 13)) || ((28 <=? n) && (n <=? 32))
   || (n =? 133) || (n =? 160))%nat.

(** [s.startswith(p)] *)
Fixpoint startswith (s p : string) {struct p} : bool :=
  match p with
  | "" => true
  | String a p' =>
      match s with
      | String b s' => if Ascii.eqb a b then startswith s' p' else false
      | "" => false
      end
  end.

(** [s.removeprefix(p)], with [None] when [p] is not a prefix. *)
Fixpoint after_prefix (s p : string) {struct p} : option string :=
  match p with
  | "" => Some s
  | String a p' =>
      match s with
      | String b s' => if Ascii.eqb a b then after_prefix s' p' else None
      | "" => None
      end
  end.

(** [s.partition(sep)] at the leftmost occurrence of [sep]; [None] when
    [sep] does not occur. *)
Fixpoint partition (s sep : string) {struct s} : option (string * string) :=
  match after_prefix s sep with
  | Some r => Some ("", r)
  | None =>
      match s with
      | "" => None
      | String c s' =>
          match partition s' sep with
          | Some (a, b) => Some (String c a, b)
          | None => None
          end
      end
  end.

(** [sub in s] *)
Definition contains (s sub : string) : bool :=
  match partition s sub with
  | Some _ => true
  | None => false
  end.

(** [s.split(sep, n)]: at most [n] cuts, each at the leftmost occurrence of
    [sep] in what is left. *)
Fixpoint splitn (n : nat) (s sep : string) : list string :=
  match n with
  | 0 => [s]
  | S n' =>
      match partition s sep with
      | None => [s]
      | Some (a, b) => a :: splitn n' b sep
      end
  end.

(** [s.split(sep)] for a non-empty [sep]: no limit on the number of cuts;
    a string of length [n] cannot be cut more than [n] times. *)
Definition split (s sep : string) : list string :=
  splitn (String.length s) s sep.

(** [s.split()]: the maximal runs of non-whitespace characters.  [cur] is
    the run being scanned. *)
Definition emit (cur : string) (rest : list string) : list string :=
  match cur with
  | "" => rest
  | _ => cur :: rest
  end.

Fixpoint split_ws_go (cur s : string) : list string :=
  match s with
  | "" => emit cur []
  | String c s' =>
      if isspace c then emit cur (split_ws_go "" s')
      else split_ws_go (cur +:+ String c "") s'
  end.

Definition split_ws (s : string) : list string := split_ws_go "" s.

(** [s.lstrip()], [s.rstrip()], [s.strip()] *)
Fixpoint lstrip (s : string) : string :=
  match s with
  | "" => ""
  | String c s' => if isspace c then lstrip s' else s
  end.

Fixpoint rstrip (s : string) : string :=
  match s with
  | "" => ""
  | String c s' =>
      match rstrip s' with
      | "" => if isspace c then "" else String c ""
      | r => String c r
      end
  end.

Definition strip (s : string) : string := rstrip (lstrip s).

(** [sep.join(l)] *)
Definition join (sep : string) (l : list string) : string :=
  String.concat sep l.

(** [l[i]] on a list *)
Definition index {A} (l : list A) (i : nat) : result A :=
  match l !! i with
  | Some x => Ok x
  | None => Raise IndexError
  end.

(** [d[k]] on a dict *)
Definition getitem {V} (d : gmap string V) (k : string) : result V :=
  match d !! k with
  | Some v => Ok v
  | None => Raise (KeyError k)
  end.

(** Truth value of a variable that holds [None] or a [str]. *)
Definition truthy (o : option string) : bool :=
  match o with
  | Some (String _ _) => true
  | _ => false
  end.

(** [re.match(r'^\s*$', s)]: after any number of whitespace characters the
    anchor [$] must hold, which it does at the end of the string and just
    before a newline that ends the string. *)
Definition at_dollar (s : string) : bool :=
  match s with
  | "" => true
  | String c "" => Ascii.eqb c "010"
  | _ => false
  end.

Fixpoint re_blank (s : string) : bool :=
  at_dollar s ||
  match s with
  | String c s' => isspace c && re_blank s'
  | "" => false
  end.

(** The comment test every loop starts with. *)
Definition is_comment (line : string) : bool :=
  startswith line "!" || startswith line "#".

(** [file.readlines()] on a file opened in text mode: the text, with its
    line ends already translated to the newline character, cut after every
    newline. *)
Fixpoint readlines_go (cur s : string) : list string :=
  match s with
  | "" => emit cur []
  | String c s' =>
      if Ascii.eqb c "010" then (cur +:+ String c "") :: readlines_go "" s'
      else readlines_go (cur +:+ String c "") s'
  end.

Definition readlines (text : string) : list string := readlines_go "" text.

(** [for line in lines: body], stopping at the first exception. *)
Fixpoint for_lines {S} (body : S → string → result S) (st : S)
    (lines : list string) : result S :=
  match lines with
  | [] => Ok st
  | line :: rest => st' ← body st line; for_lines body st' rest
  end.

End Py.
Import Py.

(** ** Main configuration dialect: [config2yaml.py]

    [Convert_HemcoConfig2yaml.py] holds the same [parse_hemco_config] without
    the logging calls, so one embedding serves both files. *)

Module Config.

(** What a section's dict holds under a key: the text of a [key: value]
    line, or the rows gathered under a sub-section name. *)
Inductive value : Type :=
| VStr (s : string)
| VRows (rows : list (list string)).

(** The three variables the loop updates. *)
Record state : Type := State {
  config_dict : gmap string (gmap string value);
  current_section : option string;
  current_sub_section : option string
}.

Definition init : state := State ∅ None None.

(** [config_dict[current_section][k] = v] *)
Definition setitem2 (st : state) (cs k : string) (v : value) : result state :=
  body ← getitem (config_dict st) cs;
  mret (State (<[cs := <[k := v]> body]> (config_dict st))
              (current_section st) (current_sub_section st)).

(** The branch for a line starting with [BEGIN SECTION]. *)
Definition begin_section (st : state) (line : string) : result state :=
  name ← index (split line "SECTION") 1;
  let section_name := strip name in
  mret (State (<[section_name := ∅]> (config_dict st))
              (Some section_name) (current_sub_section st)).

(** The branch for a line starting with [END SECTION]. *)
Definition end_section (st : state) : state :=
  State (config_dict st) None None.

(** The branch [if ':' in line]. *)
Definition key_value (st : state) (cs line : string) : result state :=
  match splitn 1 line ":" with
  | [key; value] => setitem2 st cs (strip key) (VStr (strip value))
  | _ => Raise ValueError
  end.

(** The branch for a row of tokens. *)
Definition data_row (st : state) (cs line : string) : result state :=
  let parts := split_ws line in
  if truthy (current_sub_section st) then
    let css := default "" (current_sub_section st) in
    body ← getitem (config_dict st) cs;
    v ← getitem body css;
    match v with
    | VRows rows => setitem2 st cs css (VRows (rows ++ [parts]))
    | VStr _ => Raise AttributeError
    end
  else
    p0 ← index parts 0;
    st' ← setitem2 st cs p0 (VRows [parts]);
    mret (State (config_dict st') (current_section st') (Some p0)).

(** The final [else] of the loop body. *)
Definition body_line (st : state) (line : string) : result state :=
  if truthy (current_section st) then
    let cs := default "" (current_section st) in
    if contains line ":" then key_value st cs line
    else data_row st cs line
  else mret st.

(** One iteration of the loop. *)
Definition step (st : state) (line : string) : result state :=
  if is_comment line then mret st
  else if re_blank line then mret st
  else if startswith line "BEGIN SECTION" then begin_section st line
  else if startswith line "END SECTION" then mret (end_section st)
  else if startswith line "%" then mret st
  else body_line st line.

Definition parse_hemco_config (lines : list string)
  : result (gmap string (gmap string value)) :=
  st ← for_lines step init lines; mret (config_dict st).

End Config.

(** ** Diagnostics dialect: [convert_diag2yaml.py] *)

Module Diagn.

(** The dict built for each row. *)
Record record : Type := Record_ {
  Name : string;
  Spec : string;
  ExtNr : string;
  Cat : string;
  Hier : string;
  Dim : string;
  OutUnit : string;
  LongName : string
}.

Record state : Type := State {
  diagn_dict : gmap string (list record);
  current_section : option string
}.

Definition init : state := State ∅ None.

(** [line.split(' ')[1].strip()] *)
Definition section_name (line : string) : result string :=
  name ← index (split line " ") 1; mret (strip name).

Definition begin_section (st : state) (line : string) : result state :=
  name ← section_name line;
  mret (State (<[name := []]> (diagn_dict st)) (Some name)).

Definition end_section (st : state) : state :=
  State (diagn_dict st) None.

(** The dict literal; its items are evaluated in the order written. *)
Definition decode (parts : list string) : result record :=
  p0 ← index parts 0;
  p1 ← index parts 1;
  p2 ← index parts 2;
  p3 ← index parts 3;
  p4 ← index parts 4;
  p5 ← index parts 5;
  p6 ← index parts 6;
  mret (Record_ p0 p1 p2 p3 p4 p5 p6 (join " " (drop 7 parts))).

Definition data_row (st : state) (cs line : string) : result state :=
  let parts := split_ws line in
  rows ← getitem (diagn_dict st) cs;
  r ← decode parts;
  mret (State (<[cs := rows ++ [r]]> (diagn_dict st)) (current_section st)).

Definition step (st : state) (line : string) : result state :=
  if is_comment line then mret st
  else if re_blank line then mret st
  else if startswith line "BEGIN" then begin_section st line
  else if startswith line "END" then mret (end_section st)
  else if truthy (current_section st) then
    data_row st (default "" (current_section st)) line
  else mret st.

Definition parse_hemco_diagn (lines : list string)
  : result (gmap string (list record)) :=
  st ← for_lines step init lines; mret (diagn_dict st).

End Diagn.

(** ** Species dialect: [spec2yaml.py] *)

Module Species.

Record record : Type := Record_ {
  MW : string;
  K0 : string;
  CR : string;
  pKA : string
}.

Record state : Type := State {
  species_dict : gmap string (gmap string record);
  current_section : option string
}.

Definition init : state := State ∅ None.

Definition section_name (line : string) : result string :=
  name ← index (split line " ") 1; mret (strip name).

Definition begin_section (st : state) (line : string) : result state :=
  name ← section_name line;
  mret (State (<[name := ∅]> (species_dict st)) (Some name)).

Definition end_section (st : state) : state :=
  State (species_dict st) None.

(** The right-hand side is evaluated first, then the subscripts of the
    target from left to right. *)
Definition decode (parts : list string) : result record :=
  p2 ← index parts 2;
  p3 ← index parts 3;
  p4 ← index parts 4;
  p5 ← index parts 5;
  mret (Record_ p2 p3 p4 p5).

Definition store_row (st : state) (cs : string) (parts : list string)
  : result state :=
  r ← decode parts;
  body ← getitem (species_dict st) cs;
  key ← index parts 1;
  mret (State (<[cs := <[key := r]> body]> (species_dict st))
              (current_section st)).

Definition data_row (st : state) (cs line : string) : result state :=
  store_row st cs (split_ws line).

Definition step (st : state) (line : string) : result state :=
  if is_comment line then mret st
  else if re_blank line then mret st
  else if startswith line "BEGIN" then begin_section st line
  else if startswith line "END" then mret (end_section st)
  else if truthy (current_section st) then
    data_row st (default "" (current_section st)) line
  else mret st.

Definition parse_hemco_species (lines : list string)
  : result (gmap string (gmap string record)) :=
  st ← for_lines step init lines; mret (species_dict st).

End Species.

(** ** Grid dialect: [grid2yaml.py] *)

Module Grid.

(** The [if ':' in line] body. *)
Definition key_value (grid_dict : gmap string string) (line : string)
  : result (gmap string string) :=
  match splitn 1 line ":" with
  | [key; value] =>
      v0 ← index (split value "#") 0;
      mret (<[strip key := strip v0]> grid_dict)
  | _ => Raise ValueError
  end.

Definition step (grid_dict : gmap string string) (line : string)
  : result (gmap string string) :=
  if is_comment line then mret grid_dict
  else if re_blank line then mret grid_dict
  else if contains line ":" then key_value grid_dict line
  else mret grid_dict.

Definition parse_hemco_grid (lines : list string)
  : result (gmap string string) :=
  for_lines step ∅ lines.

End Grid.

(** ** The specification's wording

    Definitions that follow the specification's sentences instead of the
    code; the theorems below compare them with the embeddings above. *)

Module Spec.

(** "The line is empty or whitespace-only." *)
Fixpoint all_space (s : string) : bool :=
  match s with
  | "" => true
  | String c s' => isspace c && all_space s'
  end.

(** "The line contains [c]." *)
Fixpoint has_char (c : ascii) (s : string) : bool :=
  match s with
  | "" => false
  | String a s' => Ascii.eqb a c || has_char c s'
  end.

(** "The text before the first [c]"; with everything from the first [c]
    onward removed, so the whole text when [c] does not occur. *)
Fixpoint before_char (c : ascii) (s : string) : string :=
  match s with
  | "" => ""
  | String a s' => if Ascii.eqb a c then "" else String a (before_char c s')
  end.

(** "The text after the first [c]." *)
Fixpoint after_char (c : ascii) (s : string) : string :=
  match s with
  | "" => ""
  | String a s' => if Ascii.eqb a c then s' else after_char c s'
  end.

(** "The substring after the marker, trimmed of surrounding whitespace." *)
Definition section_name (marker line : string) : option string :=
  strip <$> after_prefix line marker.

(** Grid dialect: the entry a line contributes, if any. *)
Definition grid_entry (line : string) : option (string * string) :=
  if is_comment line || all_space line then None
  else if has_char ":" line then
    Some (strip (before_char ":" line),
          strip (before_char "#" (after_char ":" line)))
  else None.

Definition grid_tree (lines : list string) : gmap string string :=
  fold_left
    (fun d line =>
       match grid_entry line with
       | Some (k, v) => <[k := v]> d
       | None => d
       end)
    lines ∅.

End Spec.

(** ** Reachable parser states

    The section cursor always names a key of the tree: the only assignment
    of a name to it is followed by the creation of that key, and no key is
    ever removed. *)

Definition config_inv (st : Config.state) : Prop :=
  ∀ cs, Config.current_section st = Some cs →
        is_Some (Config.config_dict st !! cs).

Definition diagn_inv (st : Diagn.state) : Prop :=
  ∀ cs, Diagn.current_section st = Some cs →
        is_Some (Diagn.diagn_dict st !! cs).

Definition species_inv (st : Species.state) : Prop :=
  ∀ cs, Species.current_section st = Some cs →
        is_Some (Species.species_dict st !! cs).

(** A line terminator, for writing lines as [readlines] returns them. *)
Definition nl : string := String "010" "".

(** ** Sample inputs *)

Module Sample.

Definition config_pre : list string := ["BEGIN SECTION EMISSIONS" +:+ nl].
Definition config_st : Config.state :=
  Config.State {[ "EMISSIONS" := ∅ ]} (Some "EMISSIONS") None.
Definition config_row : string := "SpeciesA NO 1" +:+ nl.

Definition diagn_pre : list string := ["BEGIN Diagnostics" +:+ nl].
Definition diagn_st : Diagn.state :=
  Diagn.State {[ "Diagnostics" := [] ]} (Some "Diagnostics").
Definition diagn_row : string :=
  "EmisNO NO -1 -1 -1 2 kg/m2/s NO emissions" +:+ nl.
Definition diagn_short_row : string := "EmisNO NO -1" +:+ nl.

Definition species_pre : list string := ["BEGIN Species" +:+ nl].
Definition species_st : Species.state :=
  Species.State {[ "Species" := ∅ ]} (Some "Species").
Definition species_row : string := "1 NO2 46.0 1e-5 0.0 3.4" +:+ nl.
Definition species_long_row : string :=
  "1 NO2 46.0 1e-5 0.0 3.4 extra columns" +:+ nl.

End Sample.

(** ** Lines that reach the row branches

    The conjunction of the tests a line has failed when the loop body
    arrives at [parts = line.split()]. *)

Definition config_is_row (line : string) : bool :=
  negb (is_comment line) && negb (re_blank line)
  && negb (startswith line "BEGIN SECTION")
  && negb (startswith line "END SECTION")
  && negb (startswith line "%")
  && negb (contains line ":").

(** The same for the diagnostics and the species loops, whose tests are
    the same. *)
Definition plain_is_row (line : string) : bool :=
  negb (is_comment line) && negb (re_blank line)
  && negb (startswith line "BEGIN")
  && negb (startswith line "END").

(** A token: not empty and free of whitespace. *)
Fixpoint no_space (s : string) : bool :=
  match s with
  | "" => true
  | String c s' => negb (isspace c) && no_space s'
  end.

Definition is_token (s : string) : bool :=
  match s with
  | "" => false
  | _ => no_space s
  end.

(** ** Strings: basic facts *)

Section StringFacts.

Lemma append_cons (a : ascii) (s t : string) :
  String a s +:+ t = String a (s +:+ t).
Proof. reflexivity. Qed.

Lemma append_snoc_ne (s : string) (c : ascii) : s +:+ String c "" ≠ "".
Proof. destruct s; discriminate. Qed.

Lemma length_append (s t : string) :
  String.length (s +:+ t) = String.length s + String.length t.
Proof. induction s as [|a s IH]; simpl; [done | by rewrite IH]. Qed.

Lemma after_prefix_app (p r : string) : after_prefix (p +:+ r) p = Some r.
Proof.
  induction p as [|a p IH]; simpl; [done |].
  by rewrite Ascii.eqb_refl.
Qed.

Lemma after_prefix_inv (s p r : string) :
  after_prefix s p = Some r → s = p +:+ r.
Proof.
  revert s. induction p as [|a p IH]; intros s; simpl.
  - by intros [= ->].
  - destruct s as [|b s]; [done |].
    destruct (Ascii.eqb a b) eqn:E; [| done].
    apply Ascii.eqb_eq in E as ->. intros H. by rewrite (IH _ H).
Qed.

Lemma startswith_after_prefix (s p : string) :
  startswith s p = match after_prefix s p with Some _ => true | None => false end.
Proof.
  revert s. induction p as [|a p IH]; intros s; simpl; [done |].
  destruct s as [|b s]; [done |].
  destruct (Ascii.eqb a b); [apply IH | done].
Qed.

Lemma startswith_app (p r : string) : startswith (p +:+ r) p = true.
Proof. by rewrite startswith_after_prefix, after_prefix_app. Qed.

Lemma partition_inv (s sep a b : string) :
  partition s sep = Some (a, b) → s = a +:+ sep +:+ b.
Proof.
  revert a b. induction s as [|c s IH]; intros a b; simpl.
  - destruct (after_prefix "" sep) eqn:E; [| done].
    intros [= <- <-]. exact (after_prefix_inv _ _ _ E).
  - destruct (after_prefix (String c s) sep) eqn:E.
    + intros [= <- <-]. exact (after_prefix_inv _ _ _ E).
    + destruct (partition s sep) as [[a' b']|] eqn:P; [| done].
      intros [= <- <-]. rewrite append_cons. f_equal. by apply IH.
Qed.

Lemma partition_shorter (s sep a b : string) :
  sep ≠ "" → partition s sep = Some (a, b) →
  String.length b < String.length s.
Proof.
  intros Hsep H. apply partition_inv in H as ->.
  rewrite !length_append. destruct sep; [done | simpl; lia].
Qed.

Lemma partition_empty (sep : string) : sep ≠ "" → partition "" sep = None.
Proof. by destruct sep. Qed.

(** The first field of a split is the text before the separator. *)
Lemma splitn_head (n : nat) (s sep : string) :
  head (splitn (S n) s sep)
  = Some (match partition s sep with Some (a, _) => a | None => s end).
Proof. simpl. by destruct (partition s sep) as [[a b]|]. Qed.

Lemma split_index0 (s sep : string) :
  sep ≠ "" →
  index (split s sep) 0
  = Ok (match partition s sep with Some (a, _) => a | None => s end).
Proof.
  intros Hsep. unfold index, split. rewrite <- head_lookup.
  destruct s as [|c s].
  - by rewrite partition_empty.
  - cbn [String.length]. by rewrite splitn_head.
Qed.

Lemma split_index1 (s sep a b : string) :
  sep ≠ "" → partition s sep = Some (a, b) →
  index (split s sep) 1
  = Ok (match partition b sep with Some (a', _) => a' | None => b end).
Proof.
  intros Hsep H. pose proof (partition_shorter _ _ _ _ Hsep H) as Hlen.
  unfold index, split.
  destruct (String.length s) as [|n] eqn:En; [lia |].
  cbn [splitn]. rewrite H.
  change ((a :: splitn n b sep) !! 1) with (splitn n b sep !! 0).
  rewrite <- head_lookup.
  destruct n as [|n].
  - destruct b; [| simpl in Hlen; lia]. by rewrite partition_empty.
  - by rewrite splitn_head.
Qed.

Lemma split_index1_none (s sep : string) :
  partition s sep = None → index (split s sep) 1 = Raise IndexError.
Proof.
  intros H. unfold index, split.
  destruct (String.length s); simpl; by rewrite ?H.
Qed.

(** A one-character separator: [partition] cuts at the first occurrence of
    the character. *)
Lemma partition_char (c : ascii) (s : string) :
  partition s (String c "")
  = if Spec.has_char c s
    then Some (Spec.before_char c s, Spec.after_char c s)
    else None.
Proof.
  induction s as [|a s IH]; [done |].
  cbn [partition after_prefix Spec.has_char Spec.before_char Spec.after_char].
  rewrite (Ascii.eqb_sym c a). destruct (Ascii.eqb a c); [done |].
  rewrite IH. by destruct (Spec.has_char c s).
Qed.

Lemma contains_char (c : ascii) (s : string) :
  contains s (String c "") = Spec.has_char c s.
Proof.
  unfold contains. rewrite partition_char. by destruct (Spec.has_char c s).
Qed.

Lemma before_char_absent (c : ascii) (s : string) :
  Spec.has_char c s = false → Spec.before_char c s = s.
Proof.
  induction s as [|a s IH]; [done |]. simpl.
  destruct (Ascii.eqb a c); [done |]. simpl. intros H. by rewrite IH.
Qed.

(** The regular expression test is the whitespace-only test. *)
Lemma at_dollar_all_space (s : string) :
  at_dollar s = true → Spec.all_space s = true.
Proof.
  destruct s as [|c [|d s]]; simpl; try done.
  intros H. apply Ascii.eqb_eq in H as ->. done.
Qed.

Lemma re_blank_all_space (s : string) : re_blank s = Spec.all_space s.
Proof.
  induction s as [|c s IH]; [done |].
  cbn [re_blank Spec.all_space]. rewrite IH.
  destruct (at_dollar (String c s)) eqn:E; [| done].
  apply at_dollar_all_space in E. cbn [Spec.all_space] in E. by rewrite E.
Qed.

(** A line that is not whitespace-only has a first token. *)
Lemma emit_cons (cur : string) (rest : list string) :
  cur ≠ "" → emit cur rest = cur :: rest.
Proof. by destruct cur. Qed.

Lemma split_ws_go_nonempty (cur s : string) :
  cur ≠ "" ∨ Spec.all_space s = false → split_ws_go cur s ≠ [].
Proof.
  revert cur. induction s as [|c s IH]; intros cur; simpl.
  - intros [H | H]; [| done]. by rewrite emit_cons.
  - destruct (isspace c); simpl.
    + intros [H | H]; [by rewrite emit_cons |].
      destruct cur; [| done]. simpl. apply IH. by right.
    + intros _. apply IH. left. apply append_snoc_ne.
Qed.

Lemma split_ws_nonblank (line : string) :
  re_blank line = false → ∃ p0 rest, split_ws line = p0 :: rest.
Proof.
  rewrite re_blank_all_space. intros H.
  destruct (split_ws line) as [|p0 rest] eqn:E; [| eauto].
  exfalso. revert E. apply split_ws_go_nonempty. by right.
Qed.

(** [sub in s] holds exactly when [s] has an occurrence of [sub]. *)
Lemma partition_some (a sep b : string) :
  is_Some (partition (a +:+ sep +:+ b) sep).
Proof.
  induction a as [|c a IH].
  - change ("" +:+ sep +:+ b) with (sep +:+ b).
    destruct sep as [|d sep]; [by destruct b |].
    rewrite append_cons. cbn [partition].
    rewrite <- append_cons, after_prefix_app. eauto.
  - rewrite append_cons. cbn [partition].
    destruct (after_prefix _ sep); [eauto |].
    destruct IH as [[a' b'] ->]. eauto.
Qed.

Lemma contains_spec (s sub : string) :
  contains s sub = true ↔ ∃ a b, s = a +:+ sub +:+ b.
Proof.
  unfold contains. split.
  - destruct (partition s sub) as [[a b]|] eqn:E; [| done].
    intros _. exists a, b. by apply partition_inv.
  - intros (a & b & ->). by destruct (partition_some a sub b) as [? ->].
Qed.

(** The string operations on the inputs the parsers meet. *)
Example split_example :
  split ("BEGIN SECTION BASE EMISSIONS" +:+ nl) "SECTION"
  = ["BEGIN "; " BASE EMISSIONS" +:+ nl] ∧
  split "a  b c" " " = ["a"; ""; "b"; "c"] ∧
  split "no separator" "#" = ["no separator"] ∧
  splitn 1 "Key: a:b" ":" = ["Key"; " a:b"].
Proof. repeat split. Qed.

Example split_ws_example :
  split_ws ("  EmisNO   NO" +:+ String "009" "-1 " +:+ nl)
  = ["EmisNO"; "NO"; "-1"] ∧
  split_ws (" " +:+ nl) = [].
Proof. repeat split. Qed.

Example strip_example :
  strip ("  BASE EMISSIONS " +:+ nl) = "BASE EMISSIONS" ∧
  strip (" " +:+ nl) = "" ∧
  strip "x" = "x".
Proof. repeat split. Qed.

Example re_blank_example :
  re_blank "" = true ∧ re_blank nl = true ∧
  re_blank ("  " +:+ nl) = true ∧ re_blank (nl +:+ "x") = false ∧
  re_blank (" x" +:+ nl) = false.
Proof. repeat split. Qed.

End StringFacts.

(** ** The error monad and the loop *)

Section Loop.

Context {S : Type} (body : S → string → result S).

Lemma bind_ok_inv {A B} (m : result A) (f : A → result B) (b : B) :
  (m ≫= f) = Ok b → ∃ a, m = Ok a ∧ f a = Ok b.
Proof. destruct m as [a|e]; [eauto | done]. Qed.

Lemma for_lines_app (st : S) (l1 l2 : list string) :
  for_lines body st (l1 ++ l2)
  = (for_lines body st l1 ≫= fun st' => for_lines body st' l2).
Proof.
  revert st. induction l1 as [|line l1 IH]; intros st; [done |].
  cbn [for_lines app]. destruct (body st line) as [st'|e]; [apply IH | done].
Qed.

Lemma for_lines_snoc (st st' : S) (pre : list string) (line : string) :
  for_lines body st pre = Ok st' →
  for_lines body st (pre ++ [line]) = body st' line.
Proof.
  intros H. rewrite for_lines_app, H. cbn.
  by destruct (body st' line).
Qed.

(** A property kept by every iteration holds after the loop. *)
Lemma for_lines_invariant (P : S → Prop) :
  (∀ st line st', P st → body st line = Ok st' → P st') →
  ∀ lines st st', P st → for_lines body st lines = Ok st' → P st'.
Proof.
  intros Hstep. induction lines as [|line lines IH]; intros st st' HP.
  - by intros [= <-].
  - cbn [for_lines]. intros H.
    apply bind_ok_inv in H as (st1 & H1 & H2). eauto.
Qed.

(** An exception stops the loop. *)
Lemma for_lines_raise (st st' : S) (pre post : list string) (line : string)
    (e : exn) :
  for_lines body st pre = Ok st' → body st' line = Raise e →
  for_lines body st (pre ++ line :: post) = Raise e.
Proof.
  intros H1 H2. rewrite for_lines_app, H1. cbn. by rewrite H2.
Qed.

End Loop.

Ltac unfold_result :=
  unfold mbind, mret, result_bind, result_ret in *.

(** ** The section cursor names a key of the tree *)

Section Invariants.

Lemma config_setitem2_inv st cs k v st' :
  config_inv st → Config.setitem2 st cs k v = Ok st' → config_inv st'.
Proof.
  unfold Config.setitem2, getitem. unfold_result. intros Hinv.
  destruct (Config.config_dict st !! cs) eqn:E; [| done].
  intros [= <-] cs' Hcs'. cbn in *.
  destruct (decide (cs = cs')) as [<- | Hne].
  - rewrite lookup_insert_eq. eauto.
  - rewrite lookup_insert_ne by done. by apply Hinv.
Qed.

Lemma config_step_inv st line st' :
  config_inv st → Config.step st line = Ok st' → config_inv st'.
Proof.
  intros Hinv. unfold Config.step.
  destruct (is_comment line); [by intros [= <-] |].
  destruct (re_blank line); [by intros [= <-] |].
  destruct (startswith line "BEGIN SECTION").
  { unfold Config.begin_section. unfold_result.
    destruct (index _ 1) as [name|]; [| done].
    intros [= <-] cs [= <-]. cbn. rewrite lookup_insert_eq. eauto. }
  destruct (startswith line "END SECTION"); [by intros [= <-] cs |].
  destruct (startswith line "%"); [by intros [= <-] |].
  unfold Config.body_line.
  destruct (truthy _); [| by intros [= <-]].
  destruct (contains line ":").
  - unfold Config.key_value.
    destruct (splitn 1 line ":") as [|k [|v [|? ?]]]; try done.
    by apply config_setitem2_inv.
  - unfold Config.data_row.
    destruct (truthy (Config.current_sub_section st)).
    + unfold_result. unfold getitem at 1.
      destruct (Config.config_dict st !! _) as [body|]; [| done].
      destruct (getitem body _) as [[s|rows]|]; try done.
      by apply config_setitem2_inv.
    + unfold_result. destruct (index _ 0) as [p0|]; [| done].
      destruct (Config.setitem2 _ _ _ _) as [st1|] eqn:E; [| done].
      intros [= <-]. apply (config_setitem2_inv _ _ _ _ _ Hinv) in E.
      intros cs. cbn. apply E.
Qed.

Lemma config_reachable_inv pre st :
  for_lines Config.step Config.init pre = Ok st → config_inv st.
Proof.
  apply (for_lines_invariant Config.step config_inv config_step_inv).
  by intros cs.
Qed.

Lemma diagn_step_inv st line st' :
  diagn_inv st → Diagn.step st line = Ok st' → diagn_inv st'.
Proof.
  intros Hinv. unfold Diagn.step.
  destruct (is_comment line); [by intros [= <-] |].
  destruct (re_blank line); [by intros [= <-] |].
  destruct (startswith line "BEGIN").
  { unfold Diagn.begin_section. unfold_result.
    destruct (Diagn.section_name line) as [name|]; [| done].
    intros [= <-] cs [= <-]. cbn. rewrite lookup_insert_eq. eauto. }
  destruct (startswith line "END"); [by intros [= <-] cs |].
  destruct (truthy _); [| by intros [= <-]].
  unfold Diagn.data_row. unfold_result.
  destruct (getitem _ _) as [rows|]; [| done].
  destruct (Diagn.decode _) as [r|]; [| done].
  intros [= <-] cs Hcs. cbn in *.
  destruct (decide (default "" (Diagn.current_section st) = cs)) as [<- | Hne].
  - rewrite lookup_insert_eq. eauto.
  - rewrite lookup_insert_ne by done. by apply Hinv.
Qed.

Lemma diagn_reachable_inv pre st :
  for_lines Diagn.step Diagn.init pre = Ok st → diagn_inv st.
Proof.
  apply (for_lines_invariant Diagn.step diagn_inv diagn_step_inv).
  by intros cs.
Qed.

Lemma species_step_inv st line st' :
  species_inv st → Species.step st line = Ok st' → species_inv st'.
Proof.
  intros Hinv. unfold Species.step.
  destruct (is_comment line); [by intros [= <-] |].
  destruct (re_blank line); [by intros [= <-] |].
  destruct (startswith line "BEGIN").
  { unfold Species.begin_section. unfold_result.
    destruct (Species.section_name line) as [name|]; [| done].
    intros [= <-] cs [= <-]. cbn. rewrite lookup_insert_eq. eauto. }
  destruct (startswith line "END"); [by intros [= <-] cs |].
  destruct (truthy _); [| by intros [= <-]].
  unfold Species.data_row, Species.store_row. unfold_result.
  destruct (Species.decode _) as [r|]; [| done].
  destruct (getitem _ _) as [body|]; [| done].
  destruct (index _ 1) as [key|]; [| done].
  intros [= <-] cs Hcs. cbn in *.
  destruct (decide (default "" (Species.current_section st) = cs)) as [<- | Hne].
  - rewrite lookup_insert_eq. eauto.
  - rewrite lookup_insert_ne by done. by apply Hinv.
Qed.

Lemma species_reachable_inv pre st :
  for_lines Species.step Species.init pre = Ok st → species_inv st.
Proof.
  apply (for_lines_invariant Species.step species_inv species_step_inv).
  by intros cs.
Qed.

End Invariants.

(** ** Rows of tokens *)

Section Rows.

Lemma truthy_some (o : option string) :
  truthy o = true → ∃ cs, o = Some cs ∧ default "" o = cs.
Proof. destruct o as [[|a s]|]; try done. eauto. Qed.

Lemma diagn_decode_short (parts : list string) :
  length parts < 7 → Diagn.decode parts = Raise IndexError.
Proof.
  intros H. do 7 (destruct parts as [|? parts]; [done |]).
  simpl in H. lia.
Qed.

Lemma diagn_step_row st line :
  is_comment line = false → re_blank line = false →
  startswith line "BEGIN" = false → startswith line "END" = false →
  truthy (Diagn.current_section st) = true →
  Diagn.step st line
  = Diagn.data_row st (default "" (Diagn.current_section st)) line.
Proof. intros H1 H2 H3 H4 H5. unfold Diagn.step. by rewrite H1, H2, H3, H4, H5. Qed.

Lemma species_step_row st line :
  is_comment line = false → re_blank line = false →
  startswith line "BEGIN" = false → startswith line "END" = false →
  truthy (Species.current_section st) = true →
  Species.step st line
  = Species.data_row st (default "" (Species.current_section st)) line.
Proof. intros H1 H2 H3 H4 H5. unfold Species.step. by rewrite H1, H2, H3, H4, H5. Qed.

Lemma config_step_body st line :
  is_comment line = false → re_blank line = false →
  startswith line "BEGIN SECTION" = false →
  startswith line "END SECTION" = false →
  startswith line "%" = false →
  Config.step st line = Config.body_line st line.
Proof. intros H1 H2 H3 H4 H5. unfold Config.step. by rewrite H1, H2, H3, H4, H5. Qed.

End Rows.

(** ** Properties of the parsers *)

(** C9. Main dialect: a line that reaches the row branch (section open, not
    a comment, not blank, no [BEGIN SECTION], [END SECTION] or [%] prefix,
    no [:]) has a first token, so [parts[0]] never faults; when no
    sub-section is current the iteration succeeds and that token becomes
    the sub-section name. *)
Theorem config_row_first_token (pre : list string) (st : Config.state)
    (line : string) :
  for_lines Config.step Config.init pre = Ok st →
  truthy (Config.current_section st) = true →
  is_comment line = false →
  re_blank line = false →
  startswith line "BEGIN SECTION" = false →
  startswith line "END SECTION" = false →
  startswith line "%" = false →
  contains line ":" = false →
  ∃ p0 rest,
    split_ws line = p0 :: rest ∧
    index (split_ws line) 0 = Ok p0 ∧
    Config.step st line
    = Config.data_row st (default "" (Config.current_section st)) line ∧
    (truthy (Config.current_sub_section st) = false →
     ∃ st', Config.step st line = Ok st' ∧
            Config.current_sub_section st' = Some p0).
Proof.
  intros Hpre Hcs H1 H2 H3 H4 H5 H6.
  destruct (split_ws_nonblank line H2) as (p0 & rest & Hparts).
  exists p0, rest. split; [done |]. split; [by rewrite Hparts |].
  assert (Config.step st line
          = Config.data_row st (default "" (Config.current_section st)) line)
    as Hstep.
  { rewrite config_step_body by done. unfold Config.body_line.
    by rewrite Hcs, H6. }
  split; [done |]. intros Hsub. rewrite Hstep.
  destruct (truthy_some _ Hcs) as (cs & Ecs & ->).
  destruct (config_reachable_inv _ _ Hpre cs Ecs) as [body Hbody].
  unfold Config.data_row. rewrite Hsub, Hparts.
  unfold Config.setitem2, getitem, index. rewrite Hbody. cbn. eauto.
Qed.

Lemma config_row_first_token_witness :
  ∃ p0 rest,
    split_ws Sample.config_row = p0 :: rest ∧
    index (split_ws Sample.config_row) 0 = Ok p0 ∧
    Config.step Sample.config_st Sample.config_row
    = Config.data_row Sample.config_st
        (default "" (Config.current_section Sample.config_st))
        Sample.config_row ∧
    (truthy (Config.current_sub_section Sample.config_st) = false →
     ∃ st', Config.step Sample.config_st Sample.config_row = Ok st' ∧
            Config.current_sub_section st' = Some p0).
Proof.
  apply (config_row_first_token Sample.config_pre Sample.config_st
           Sample.config_row); vm_compute; reflexivity.
Defined.

(** C7. Diagnostics dialect: a row of at least seven tokens in an open
    section appends one record whose Name, Spec, ExtNr, Cat, Hier, Dim and
    OutUnit are the first seven tokens in order and whose LongName is the
    remaining tokens joined with single spaces, the empty string when there
    are exactly seven tokens. *)
Theorem diagn_row_fields (pre : list string) (st : Diagn.state)
    (line t0 t1 t2 t3 t4 t5 t6 : string) (more : list string) :
  for_lines Diagn.step Diagn.init pre = Ok st →
  truthy (Diagn.current_section st) = true →
  is_comment line = false →
  re_blank line = false →
  startswith line "BEGIN" = false →
  startswith line "END" = false →
  split_ws line = t0 :: t1 :: t2 :: t3 :: t4 :: t5 :: t6 :: more →
  ∃ cs rows r,
    Diagn.current_section st = Some cs ∧
    Diagn.diagn_dict st !! cs = Some rows ∧
    Diagn.step st line
    = Ok (Diagn.State (<[cs := rows ++ [r]]> (Diagn.diagn_dict st)) (Some cs)) ∧
    Diagn.decode (split_ws line) = Ok r ∧
    r = Diagn.Record_ t0 t1 t2 t3 t4 t5 t6 (join " " more) ∧
    (length (split_ws line) = 7 → Diagn.LongName r = "").
Proof.
  intros Hpre Hcs H1 H2 H3 H4 Hparts.
  destruct (truthy_some _ Hcs) as (cs & Ecs & Edef).
  destruct (diagn_reachable_inv _ _ Hpre cs Ecs) as [rows Hrows].
  exists cs, rows, (Diagn.Record_ t0 t1 t2 t3 t4 t5 t6 (join " " more)).
  split; [done |]. split; [done |].
  split; [| split; [by rewrite Hparts | split; [done |]]].
  - rewrite diagn_step_row by done. rewrite Edef.
    unfold Diagn.data_row, getitem. rewrite Hrows, Hparts, Ecs. done.
  - rewrite Hparts. destruct more; [done |]. simpl. lia.
Qed.

Lemma diagn_row_fields_witness :
  ∃ cs rows r,
    Diagn.current_section Sample.diagn_st = Some cs ∧
    Diagn.diagn_dict Sample.diagn_st !! cs = Some rows ∧
    Diagn.step Sample.diagn_st Sample.diagn_row
    = Ok (Diagn.State (<[cs := rows ++ [r]]> (Diagn.diagn_dict Sample.diagn_st))
                      (Some cs)) ∧
    Diagn.decode (split_ws Sample.diagn_row) = Ok r ∧
    r = Diagn.Record_ "EmisNO" "NO" "-1" "-1" "-1" "2" "kg/m2/s"
                      (join " " ["NO"; "emissions"]) ∧
    (length (split_ws Sample.diagn_row) = 7 → Diagn.LongName r = "").
Proof.
  apply (diagn_row_fields Sample.diagn_pre Sample.diagn_st Sample.diagn_row
           "EmisNO" "NO" "-1" "-1" "-1" "2" "kg/m2/s" ["NO"; "emissions"]);
    vm_compute; reflexivity.
Defined.

(** A row of exactly seven tokens: the LongName is the empty string. *)
Example diagn_seven_tokens_example :
  Diagn.step Sample.diagn_st ("EmisNO NO -1 -1 -1 2 kg/m2/s" +:+ nl)
  = Ok (Diagn.State
          {[ "Diagnostics" :=
               [Diagn.Record_ "EmisNO" "NO" "-1" "-1" "-1" "2" "kg/m2/s" ""] ]}
          (Some "Diagnostics")).
Proof. vm_compute. reflexivity. Qed.

(** C4, amended. Diagnostics dialect: a row of fewer than seven
    tokens in an open section makes the iteration, and with it the whole
    parse, stop with the list's out-of-range fault; the fault carries
    neither the line nor its number, and no record is stored. *)
Theorem diagn_short_row_faults (pre post : list string) (st : Diagn.state)
    (line : string) :
  for_lines Diagn.step Diagn.init pre = Ok st →
  truthy (Diagn.current_section st) = true →
  is_comment line = false →
  re_blank line = false →
  startswith line "BEGIN" = false →
  startswith line "END" = false →
  length (split_ws line) < 7 →
  Diagn.step st line = Raise IndexError ∧
  Diagn.parse_hemco_diagn (pre ++ line :: post) = Raise IndexError.
Proof.
  intros Hpre Hcs H1 H2 H3 H4 Hlen.
  assert (Diagn.step st line = Raise IndexError) as Hstep.
  { rewrite diagn_step_row by done.
    destruct (truthy_some _ Hcs) as (cs & Ecs & ->).
    destruct (diagn_reachable_inv _ _ Hpre cs Ecs) as [rows Hrows].
    unfold Diagn.data_row, getitem. rewrite Hrows.
    by rewrite diagn_decode_short. }
  split; [done |]. unfold Diagn.parse_hemco_diagn.
  by rewrite (for_lines_raise _ _ _ _ _ _ _ Hpre Hstep).
Qed.

Lemma diagn_short_row_faults_witness :
  Diagn.step Sample.diagn_st Sample.diagn_short_row = Raise IndexError ∧
  Diagn.parse_hemco_diagn
    (Sample.diagn_pre ++ Sample.diagn_short_row :: ["END" +:+ nl])
  = Raise IndexError.
Proof.
  apply (diagn_short_row_faults Sample.diagn_pre ["END" +:+ nl]
           Sample.diagn_st Sample.diagn_short_row);
    vm_compute; first [reflexivity | lia].
Defined.

(** C4, counterexample. Diagnostics dialect: on a row of three tokens in
    an open section the parse ends in the out-of-range fault [IndexError],
    not in an error that names the line. *)
Lemma diagn_short_row_counterexample :
  length (split_ws ("EmisNO NO -1" +:+ nl)) = 3 ∧
  Diagn.parse_hemco_diagn
    ["BEGIN Diagnostics" +:+ nl; "EmisNO NO -1" +:+ nl]
  = Raise IndexError.
Proof. split; vm_compute; reflexivity. Qed.

(** C10. Species dialect: a row with six or more tokens in an open section
    stores, under its second token, the record of its third to sixth
    tokens; the tokens after the sixth change nothing, the row cut to its
    first six tokens gives the same result. *)
Theorem species_row_extra_tokens (pre : list string) (st : Species.state)
    (line line6 t0 t1 t2 t3 t4 t5 : string) (extra : list string) :
  for_lines Species.step Species.init pre = Ok st →
  truthy (Species.current_section st) = true →
  is_comment line = false →
  re_blank line = false →
  startswith line "BEGIN" = false →
  startswith line "END" = false →
  split_ws line = t0 :: t1 :: t2 :: t3 :: t4 :: t5 :: extra →
  is_comment line6 = false →
  re_blank line6 = false →
  startswith line6 "BEGIN" = false →
  startswith line6 "END" = false →
  split_ws line6 = take 6 (split_ws line) →
  ∃ cs body,
    Species.current_section st = Some cs ∧
    Species.species_dict st !! cs = Some body ∧
    Species.step st line
    = Ok (Species.State
            (<[cs := <[t1 := Species.Record_ t2 t3 t4 t5]> body]>
               (Species.species_dict st))
            (Some cs)) ∧
    Species.step st line6 = Species.step st line.
Proof.
  intros Hpre Hcs H1 H2 H3 H4 Hparts G1 G2 G3 G4 Hparts6.
  destruct (truthy_some _ Hcs) as (cs & Ecs & Edef).
  destruct (species_reachable_inv _ _ Hpre cs Ecs) as [body Hbody].
  exists cs, body. split; [done |]. split; [done |].
  rewrite !species_step_row by done. rewrite Edef.
  unfold Species.data_row. rewrite Hparts6, Hparts.
  unfold Species.store_row, getitem. rewrite Hbody, Ecs. done.
Qed.

Lemma species_row_extra_tokens_witness :
  ∃ cs body,
    Species.current_section Sample.species_st = Some cs ∧
    Species.species_dict Sample.species_st !! cs = Some body ∧
    Species.step Sample.species_st Sample.species_long_row
    = Ok (Species.State
            (<[cs := <["NO2" := Species.Record_ "46.0" "1e-5" "0.0" "3.4"]> body]>
               (Species.species_dict Sample.species_st))
            (Some cs)) ∧
    Species.step Sample.species_st Sample.species_row
    = Species.step Sample.species_st Sample.species_long_row.
Proof.
  apply (species_row_extra_tokens Sample.species_pre Sample.species_st
           Sample.species_long_row Sample.species_row
           "1" "NO2" "46.0" "1e-5" "0.0" "3.4" ["extra"; "columns"]);
    vm_compute; reflexivity.
Defined.

(** C6. The species scenario: the text [BEGIN Species], [1 NO2 46.0 1e-5
    0.0 3.4], [END] on three lines parses to the tree with the one section
    [Species] holding the one entry [NO2] with MW 46.0, K0 1e-5, CR 0.0 and
    pKA 3.4; the first token, 1, appears nowhere. *)
Theorem species_scenario :
  readlines ("BEGIN Species" +:+ nl +:+ "1 NO2 46.0 1e-5 0.0 3.4" +:+ nl +:+ "END")
  = ["BEGIN Species" +:+ nl; "1 NO2 46.0 1e-5 0.0 3.4" +:+ nl; "END"] ∧
  Species.parse_hemco_species
    ["BEGIN Species" +:+ nl; "1 NO2 46.0 1e-5 0.0 3.4" +:+ nl; "END"]
  = Ok {[ "Species" :=
            {[ "NO2" := Species.Record_ "46.0" "1e-5" "0.0" "3.4" ]} ]}.
Proof. split; vm_compute; reflexivity. Qed.

(** ** Grid dialect against the specification's wording *)

Lemma grid_key_value_spec (d : gmap string string) (line : string) :
  Spec.has_char ":" line = true →
  Grid.key_value d line
  = Ok (<[strip (Spec.before_char ":" line)
          := strip (Spec.before_char "#" (Spec.after_char ":" line))]> d).
Proof.
  intros H. unfold Grid.key_value. cbn [splitn].
  rewrite !partition_char, H. rewrite split_index0 by done.
  rewrite partition_char. cbn.
  destruct (Spec.has_char "#" (Spec.after_char ":" line)) eqn:E; [done |].
  by rewrite (before_char_absent "#") by done.
Qed.

Lemma grid_step_spec (d : gmap string string) (line : string) :
  Grid.step d line
  = Ok (match Spec.grid_entry line with
        | Some (k, v) => <[k := v]> d
        | None => d
        end).
Proof.
  unfold Grid.step, Spec.grid_entry.
  rewrite re_blank_all_space, contains_char.
  destruct (is_comment line); [done |].
  destruct (Spec.all_space line); [done |]. cbn [orb].
  destruct (Spec.has_char ":" line) eqn:E; [| done].
  by apply grid_key_value_spec.
Qed.

(** C8. Grid dialect: the parser never fails and returns a flat mapping
    from strings to strings; reading the lines in order, each line that is
    neither a comment nor blank and contains [:] sets the entry whose key is
    the trimmed text before the first [:] to the text after the first [:]
    cut at the first [#] and trimmed; every other line changes nothing. *)
Theorem grid_parse_flat (lines : list string) :
  Grid.parse_hemco_grid lines = Ok (Spec.grid_tree lines) ∧
  ∀ (d : gmap string string) (line : string),
    Grid.step d line
    = Ok (if is_comment line || Spec.all_space line then d
          else if Spec.has_char ":" line then
            <[strip (Spec.before_char ":" line)
              := strip (Spec.before_char "#" (Spec.after_char ":" line))]> d
          else d).
Proof.
  split.
  - unfold Grid.parse_hemco_grid, Spec.grid_tree.
    generalize (∅ : gmap string string) as d.
    induction lines as [|line lines IH]; intros d; [done |].
    cbn [for_lines fold_left]. rewrite grid_step_spec. cbn. apply IH.
  - intros d line. rewrite grid_step_spec. unfold Spec.grid_entry.
    destruct (is_comment line || Spec.all_space line); [done |].
    by destruct (Spec.has_char ":" line).
Qed.

(** ** Section delimiters *)

Section Delimiters.

Lemma append_nil_r (s : string) : s +:+ "" = s.
Proof. induction s as [|a s IH]; [done |]. by rewrite append_cons, IH. Qed.

Lemma startswith_inv (s p : string) :
  startswith s p = true → ∃ r, s = p +:+ r.
Proof.
  rewrite startswith_after_prefix.
  destruct (after_prefix s p) as [r|] eqn:E; [| done].
  intros _. exists r. by apply after_prefix_inv.
Qed.

Lemma partition_app_char (c : ascii) (h x : string) :
  Spec.has_char c h = false →
  partition (h +:+ String c x) (String c "") = Some (h, x).
Proof.
  intros H. induction h as [|a h IH].
  - change ("" +:+ String c x) with (String c x).
    cbn [partition after_prefix]. by rewrite Ascii.eqb_refl.
  - cbn [Spec.has_char] in H. apply orb_false_iff in H as [Ha Hh].
    rewrite append_cons. cbn [partition after_prefix].
    rewrite (Ascii.eqb_sym c a), Ha. by rewrite IH.
Qed.

Lemma partition_absent_char (c : ascii) (s : string) :
  Spec.has_char c s = false → partition s (String c "") = None.
Proof. intros H. by rewrite partition_char, H. Qed.

(** The second space-separated field of [head name] and of
    [head name tail]. *)
Lemma second_field_last (head name : string) :
  Spec.has_char " " head = false → Spec.has_char " " name = false →
  index (split (head +:+ " " +:+ name) " ") 1 = Ok name.
Proof.
  intros Hh Hn.
  rewrite (split_index1 _ _ head name) by (done || by apply partition_app_char).
  by rewrite partition_absent_char.
Qed.

Lemma second_field_inner (head name tail : string) :
  Spec.has_char " " head = false → Spec.has_char " " name = false →
  index (split (head +:+ " " +:+ name +:+ " " +:+ tail) " ") 1 = Ok name.
Proof.
  intros Hh Hn.
  rewrite (split_index1 _ _ head (name +:+ " " +:+ tail))
    by (done || by apply partition_app_char).
  change (" " +:+ tail) with (String " " tail).
  by rewrite partition_app_char.
Qed.

(** A line starting with [END] or [%] passes the tests that precede the
    delimiter tests. *)
Lemma not_blank_nonspace (c : ascii) (s : string) :
  isspace c = false → re_blank (String c s) = false.
Proof.
  intros H. cbn [re_blank]. rewrite H. cbn.
  destruct s; [| done]. destruct (Ascii.eqb c "010") eqn:E; [| done].
  apply Ascii.eqb_eq in E as ->. done.
Qed.

End Delimiters.

(** C3, amended. Main dialect: when the text after [BEGIN
    SECTION] holds no further [SECTION], the section name is that whole text
    trimmed, as the specification words it.  Diagnostics and species
    dialects: the section name is the text between the first and the second
    space of the line, or up to the end of the line when there is no second
    space, trimmed. *)
Theorem section_name_extracted (rest head name tail : string) :
  contains rest "SECTION" = false →
  Spec.has_char " " head = false →
  Spec.has_char " " name = false →
  (∀ st, Config.begin_section st ("BEGIN SECTION" +:+ rest)
         = Ok (Config.State (<[strip rest := ∅]> (Config.config_dict st))
                 (Some (strip rest)) (Config.current_sub_section st))) ∧
  Spec.section_name "BEGIN SECTION" ("BEGIN SECTION" +:+ rest)
  = Some (strip rest) ∧
  Diagn.section_name (head +:+ " " +:+ name) = Ok (strip name) ∧
  Diagn.section_name (head +:+ " " +:+ name +:+ " " +:+ tail)
  = Ok (strip name) ∧
  Species.section_name (head +:+ " " +:+ name) = Ok (strip name) ∧
  Species.section_name (head +:+ " " +:+ name +:+ " " +:+ tail)
  = Ok (strip name).
Proof.
  intros Hrest Hh Hn. split; [| split].
  - intros st. unfold Config.begin_section.
    rewrite (split_index1 _ _ "BEGIN " rest) by done.
    unfold contains in Hrest.
    by destruct (partition rest "SECTION") as [[a b]|].
  - unfold Spec.section_name. by rewrite after_prefix_app.
  - unfold Diagn.section_name, Species.section_name.
    by rewrite second_field_last, second_field_inner.
Qed.

Lemma section_name_extracted_witness :
  (∀ st, Config.begin_section st ("BEGIN SECTION" +:+ (" BASE EMISSIONS" +:+ nl))
         = Ok (Config.State
                 (<[strip (" BASE EMISSIONS" +:+ nl) := ∅]> (Config.config_dict st))
                 (Some (strip (" BASE EMISSIONS" +:+ nl)))
                 (Config.current_sub_section st))) ∧
  Spec.section_name "BEGIN SECTION"
    ("BEGIN SECTION" +:+ (" BASE EMISSIONS" +:+ nl))
  = Some (strip (" BASE EMISSIONS" +:+ nl)) ∧
  Diagn.section_name ("BEGIN" +:+ " " +:+ ("Species" +:+ nl))
  = Ok (strip ("Species" +:+ nl)) ∧
  Diagn.section_name ("BEGIN" +:+ " " +:+ "My" +:+ " " +:+ ("Section Data" +:+ nl))
  = Ok (strip "My") ∧
  Species.section_name ("BEGIN" +:+ " " +:+ ("Species" +:+ nl))
  = Ok (strip ("Species" +:+ nl)) ∧
  Species.section_name ("BEGIN" +:+ " " +:+ "My" +:+ " " +:+ ("Section Data" +:+ nl))
  = Ok (strip "My").
Proof.
  pose proof (section_name_extracted (" BASE EMISSIONS" +:+ nl) "BEGIN"
                ("Species" +:+ nl) "" eq_refl eq_refl eq_refl)
    as (H1 & H2 & H3 & _ & H5 & _).
  pose proof (section_name_extracted "" "BEGIN" "My" ("Section Data" +:+ nl)
                eq_refl eq_refl eq_refl)
    as (_ & _ & _ & H4 & _ & H6).
  exact (conj H1 (conj H2 (conj H3 (conj H4 (conj H5 H6))))).
Defined.

(** C3, counterexample. The name taken from a line with several words
    after the marker is its first word, not the whole text after the marker;
    in the main dialect a name holding [SECTION] is cut there. *)
Lemma section_name_counterexample :
  Diagn.section_name ("BEGIN My Section Data" +:+ nl) = Ok "My" ∧
  Species.section_name ("BEGIN My Section Data" +:+ nl) = Ok "My" ∧
  Spec.section_name "BEGIN" ("BEGIN My Section Data" +:+ nl)
  = Some "My Section Data" ∧
  Config.begin_section Config.init ("BEGIN SECTION MY SECTION DATA" +:+ nl)
  = Ok (Config.State {[ "MY" := ∅ ]} (Some "MY") None) ∧
  Spec.section_name "BEGIN SECTION" ("BEGIN SECTION MY SECTION DATA" +:+ nl)
  = Some "MY SECTION DATA".
Proof. repeat split; vm_compute; reflexivity. Qed.

(** C2, amended. A line starting with [END] ends the section in
    the diagnostics and species dialects, whatever follows [END].  In the
    main dialect the line ends the section, clearing both cursors, when it
    starts with [END SECTION]; otherwise it is handled like any other line
    of a section body. *)
Theorem end_line_ends_section (line : string) :
  startswith line "END" = true →
  (∀ st, Diagn.step st line = Ok (Diagn.State (Diagn.diagn_dict st) None)) ∧
  (∀ st, Species.step st line
         = Ok (Species.State (Species.species_dict st) None)) ∧
  (startswith line "END SECTION" = true →
   ∀ st, Config.step st line
         = Ok (Config.State (Config.config_dict st) None None)) ∧
  (startswith line "END SECTION" = false →
   ∀ st, Config.step st line = Config.body_line st line).
Proof.
  intros H. apply startswith_inv in H as [r ->].
  assert (re_blank ("END" +:+ r) = false) as Hb by by apply not_blank_nonspace.
  split; [| split; [| split]].
  - intros st. unfold Diagn.step. by rewrite Hb.
  - intros st. unfold Species.step. by rewrite Hb.
  - intros Hes st. unfold Config.step. by rewrite Hb, Hes.
  - intros Hes st. unfold Config.step. by rewrite Hb, Hes.
Qed.

Lemma end_line_ends_section_witness :
  ((∀ st, Diagn.step st ("END" +:+ nl)
          = Ok (Diagn.State (Diagn.diagn_dict st) None)) ∧
   (∀ st, Species.step st ("END" +:+ nl)
          = Ok (Species.State (Species.species_dict st) None)) ∧
   (startswith ("END" +:+ nl) "END SECTION" = true →
    ∀ st, Config.step st ("END" +:+ nl)
          = Ok (Config.State (Config.config_dict st) None None)) ∧
   (startswith ("END" +:+ nl) "END SECTION" = false →
    ∀ st, Config.step st ("END" +:+ nl) = Config.body_line st ("END" +:+ nl)))
  ∧
  ∀ st, Config.step st ("END SECTION EMISSIONS" +:+ nl)
        = Ok (Config.State (Config.config_dict st) None None).
Proof.
  split.
  - apply (end_line_ends_section ("END" +:+ nl)). reflexivity.
  - apply (end_line_ends_section ("END SECTION EMISSIONS" +:+ nl));
      reflexivity.
Defined.

(** C2, counterexample. Main dialect: a line [END] in an open section
    leaves the section open and is stored as a row. *)
Lemma end_alone_counterexample :
  startswith ("END" +:+ nl) "END" = true ∧
  Config.step (Config.State {[ "A" := ∅ ]} (Some "A") None) ("END" +:+ nl)
  = Ok (Config.State {[ "A" := {[ "END" := Config.VRows [["END"]] ]} ]}
          (Some "A") (Some "END")) ∧
  Config.parse_hemco_config ["BEGIN SECTION A" +:+ nl; "END" +:+ nl]
  = Ok {[ "A" := {[ "END" := Config.VRows [["END"]] ]} ]}.
Proof. repeat split; vm_compute; reflexivity. Qed.

(** C5, what the code does. Main dialect: every line that starts with [%]
    is skipped, whatever follows the [%]; a [key: value] line with a leading
    [%] in an open section leaves the tree unchanged, although the branch
    for section bodies would have stored it. *)
Theorem config_percent_line_skipped :
  (∀ st rest, Config.step st (String "%" rest) = Ok st) ∧
  Config.step (Config.State {[ "A" := ∅ ]} (Some "A") None)
              ("%key: v" +:+ nl)
  = Ok (Config.State {[ "A" := ∅ ]} (Some "A") None) ∧
  Config.body_line (Config.State {[ "A" := ∅ ]} (Some "A") None)
                   ("%key: v" +:+ nl)
  = Ok (Config.State {[ "A" := {[ "%key" := Config.VStr "v" ]} ]}
          (Some "A") None) ∧
  Config.parse_hemco_config ["BEGIN SECTION A" +:+ nl; "%key: v" +:+ nl]
  = Ok {[ "A" := ∅ ]}.
Proof.
  split; [| repeat split; vm_compute; reflexivity].
  intros st rest. unfold Config.step.
  by rewrite (not_blank_nonspace "%" rest).
Qed.

(** The [BEGIN SECTION] branch never touches the sub-section cursor. *)
Lemma config_begin_section_cursor (st st' : Config.state) (line : string) :
  Config.begin_section st line = Ok st' →
  Config.current_sub_section st' = Config.current_sub_section st.
Proof.
  unfold Config.begin_section. unfold_result.
  destruct (index _ 1); [| done]. by intros [= <-].
Qed.

(** C1, what the code does. Main dialect: [BEGIN SECTION] leaves the
    sub-section cursor as it was; a second [BEGIN SECTION] after a row of a
    section that was not ended keeps the old sub-section name, and the next
    row fails with a [KeyError] on that name. *)
Theorem config_begin_keeps_sub_section :
  for_lines Config.step Config.init
    ["BEGIN SECTION A" +:+ nl; "x 1" +:+ nl; "BEGIN SECTION B" +:+ nl]
  = Ok (Config.State
          {[ "A" := {[ "x" := Config.VRows [["x"; "1"]] ]}; "B" := ∅ ]}
          (Some "B") (Some "x")) ∧
  Config.parse_hemco_config
    ["BEGIN SECTION A" +:+ nl; "x 1" +:+ nl; "BEGIN SECTION B" +:+ nl;
     "y 2" +:+ nl]
  = Raise (KeyError "x").
Proof. split; vm_compute; reflexivity. Qed.

(** ** Further properties of the loops *)

Section LoopFacts.

Context {S : Type} (body : S → string → result S).

(** When the loop raises, one iteration raised after a prefix that ran. *)
Lemma for_lines_raise_inv (st : S) (lines : list string) (e : exn) :
  for_lines body st lines = Raise e →
  ∃ pre line post st',
    lines = pre ++ line :: post ∧
    for_lines body st pre = Ok st' ∧ body st' line = Raise e.
Proof.
  revert st. induction lines as [|l lines IH]; intros st; [done |].
  cbn [for_lines]. destruct (body st l) as [st1|e1] eqn:E.
  - intros H. destruct (IH _ H) as (pre & line & post & st' & -> & H1 & H2).
    exists (l :: pre), line, post, st'. split; [done |]. split; [| done].
    cbn [for_lines]. by rewrite E.
  - intros [= ->]. exists [], l, lines, st. by repeat split.
Qed.

(** A line on which the body does nothing can be dropped from the input. *)
Lemma for_lines_skip (st : S) (l1 l2 : list string) (c : string) :
  (∀ st', body st' c = Ok st') →
  for_lines body st (l1 ++ c :: l2) = for_lines body st (l1 ++ l2).
Proof.
  intros Hc. rewrite !for_lines_app. cbn [for_lines].
  destruct (for_lines body st l1) as [st1|e]; [| done].
  cbn. by rewrite Hc.
Qed.

End LoopFacts.

Section SkippedLines.

Lemma config_step_skip st c :
  is_comment c = true ∨ re_blank c = true → Config.step st c = Ok st.
Proof.
  unfold Config.step. intros [-> | ->]; [done |]. by destruct (is_comment c).
Qed.

Lemma diagn_step_skip st c :
  is_comment c = true ∨ re_blank c = true → Diagn.step st c = Ok st.
Proof.
  unfold Diagn.step. intros [-> | ->]; [done |]. by destruct (is_comment c).
Qed.

Lemma species_step_skip st c :
  is_comment c = true ∨ re_blank c = true → Species.step st c = Ok st.
Proof.
  unfold Species.step. intros [-> | ->]; [done |]. by destruct (is_comment c).
Qed.

Lemma grid_step_skip d c :
  is_comment c = true ∨ re_blank c = true → Grid.step d c = Ok d.
Proof.
  unfold Grid.step. intros [-> | ->]; [done |]. by destruct (is_comment c).
Qed.

End SkippedLines.

(** X1. In all four dialects a comment line (first character [!] or [#]) or
    a whitespace-only line can stand anywhere in the input without changing
    what the parser returns. *)
Theorem comment_blank_lines_ignored (l1 l2 : list string) (c : string) :
  is_comment c = true ∨ re_blank c = true →
  Config.parse_hemco_config (l1 ++ c :: l2)
  = Config.parse_hemco_config (l1 ++ l2) ∧
  Diagn.parse_hemco_diagn (l1 ++ c :: l2) = Diagn.parse_hemco_diagn (l1 ++ l2) ∧
  Species.parse_hemco_species (l1 ++ c :: l2)
  = Species.parse_hemco_species (l1 ++ l2) ∧
  Grid.parse_hemco_grid (l1 ++ c :: l2) = Grid.parse_hemco_grid (l1 ++ l2).
Proof.
  intros Hc.
  unfold Config.parse_hemco_config, Diagn.parse_hemco_diagn,
    Species.parse_hemco_species, Grid.parse_hemco_grid.
  rewrite (for_lines_skip Config.step) by (intros; by apply config_step_skip).
  rewrite (for_lines_skip Diagn.step) by (intros; by apply diagn_step_skip).
  rewrite (for_lines_skip Species.step) by (intros; by apply species_step_skip).
  rewrite (for_lines_skip Grid.step) by (intros; by apply grid_step_skip).
  done.
Qed.

Lemma comment_blank_lines_ignored_witness :
  Config.parse_hemco_config
    (Sample.config_pre ++ ("# a comment" +:+ nl) :: [Sample.config_row])
  = Config.parse_hemco_config (Sample.config_pre ++ [Sample.config_row]) ∧
  Diagn.parse_hemco_diagn
    (Sample.config_pre ++ ("# a comment" +:+ nl) :: [Sample.config_row])
  = Diagn.parse_hemco_diagn (Sample.config_pre ++ [Sample.config_row]) ∧
  Species.parse_hemco_species
    (Sample.config_pre ++ ("# a comment" +:+ nl) :: [Sample.config_row])
  = Species.parse_hemco_species (Sample.config_pre ++ [Sample.config_row]) ∧
  Grid.parse_hemco_grid
    (Sample.config_pre ++ ("# a comment" +:+ nl) :: [Sample.config_row])
  = Grid.parse_hemco_grid (Sample.config_pre ++ [Sample.config_row]).
Proof.
  apply (comment_blank_lines_ignored Sample.config_pre [Sample.config_row]
           ("# a comment" +:+ nl)).
  left. reflexivity.
Defined.

(** ** Input without sections *)

Section NoSection.

Lemma config_step_outside st line :
  truthy (Config.current_section st) = false →
  startswith line "BEGIN SECTION" = false →
  ∃ st', Config.step st line = Ok st' ∧
         Config.config_dict st' = Config.config_dict st ∧
         truthy (Config.current_section st') = false.
Proof.
  intros Hcs Hb. unfold Config.step, Config.body_line. rewrite Hb, Hcs.
  destruct (is_comment line); [eauto |].
  destruct (re_blank line); [eauto |].
  destruct (startswith line "END SECTION"); [eauto |].
  destruct (startswith line "%"); eauto.
Qed.

Lemma diagn_step_outside st line :
  truthy (Diagn.current_section st) = false →
  startswith line "BEGIN" = false →
  ∃ st', Diagn.step st line = Ok st' ∧
         Diagn.diagn_dict st' = Diagn.diagn_dict st ∧
         truthy (Diagn.current_section st') = false.
Proof.
  intros Hcs Hb. unfold Diagn.step. rewrite Hb, Hcs.
  destruct (is_comment line); [eauto |].
  destruct (re_blank line); [eauto |].
  destruct (startswith line "END"); eauto.
Qed.

Lemma species_step_outside st line :
  truthy (Species.current_section st) = false →
  startswith line "BEGIN" = false →
  ∃ st', Species.step st line = Ok st' ∧
         Species.species_dict st' = Species.species_dict st ∧
         truthy (Species.current_section st') = false.
Proof.
  intros Hcs Hb. unfold Species.step. rewrite Hb, Hcs.
  destruct (is_comment line); [eauto |].
  destruct (re_blank line); [eauto |].
  destruct (startswith line "END"); eauto.
Qed.

Lemma config_lines_outside lines : ∀ st,
  truthy (Config.current_section st) = false →
  forallb (fun l => negb (startswith l "BEGIN SECTION")) lines = true →
  ∃ st', for_lines Config.step st lines = Ok st' ∧
         Config.config_dict st' = Config.config_dict st.
Proof.
  induction lines as [|l lines IH]; intros st Hcs H; [by exists st |].
  cbn [forallb] in H. apply andb_true_iff in H as [Hl H].
  apply negb_true_iff in Hl.
  destruct (config_step_outside st l Hcs Hl) as (st1 & E1 & D1 & C1).
  destruct (IH st1 C1 H) as (st' & E' & D').
  exists st'. cbn [for_lines]. rewrite E1. split; [done | congruence].
Qed.

Lemma diagn_lines_outside lines : ∀ st,
  truthy (Diagn.current_section st) = false →
  forallb (fun l => negb (startswith l "BEGIN")) lines = true →
  ∃ st', for_lines Diagn.step st lines = Ok st' ∧
         Diagn.diagn_dict st' = Diagn.diagn_dict st.
Proof.
  induction lines as [|l lines IH]; intros st Hcs H; [by exists st |].
  cbn [forallb] in H. apply andb_true_iff in H as [Hl H].
  apply negb_true_iff in Hl.
  destruct (diagn_step_outside st l Hcs Hl) as (st1 & E1 & D1 & C1).
  destruct (IH st1 C1 H) as (st' & E' & D').
  exists st'. cbn [for_lines]. rewrite E1. split; [done | congruence].
Qed.

Lemma species_lines_outside lines : ∀ st,
  truthy (Species.current_section st) = false →
  forallb (fun l => negb (startswith l "BEGIN")) lines = true →
  ∃ st', for_lines Species.step st lines = Ok st' ∧
         Species.species_dict st' = Species.species_dict st.
Proof.
  induction lines as [|l lines IH]; intros st Hcs H; [by exists st |].
  cbn [forallb] in H. apply andb_true_iff in H as [Hl H].
  apply negb_true_iff in Hl.
  destruct (species_step_outside st l Hcs Hl) as (st1 & E1 & D1 & C1).
  destruct (IH st1 C1 H) as (st' & E' & D').
  exists st'. cbn [for_lines]. rewrite E1. split; [done | congruence].
Qed.

End NoSection.

(** X2. Main dialect: an input in which no line starts with [BEGIN SECTION]
    parses, without error, to the empty tree, whatever else it holds
    (key-value lines, rows, [END SECTION] lines); in particular a file whose
    section delimiters are written behind a [#] yields nothing. *)
Theorem config_no_begin_empty_tree (lines : list string) :
  forallb (fun l => negb (startswith l "BEGIN SECTION")) lines = true →
  Config.parse_hemco_config lines = Ok ∅.
Proof.
  intros H. unfold Config.parse_hemco_config.
  destruct (config_lines_outside lines Config.init eq_refl H)
    as (st' & -> & D). cbn. by rewrite D.
Qed.

Lemma config_no_begin_empty_tree_witness :
  Config.parse_hemco_config
    ["### BEGIN SECTION SETTINGS" +:+ nl; "Verbose: 0" +:+ nl;
     "0 NO 1 2" +:+ nl; "END SECTION SETTINGS" +:+ nl]
  = Ok ∅.
Proof.
  apply (config_no_begin_empty_tree
           ["### BEGIN SECTION SETTINGS" +:+ nl; "Verbose: 0" +:+ nl;
            "0 NO 1 2" +:+ nl; "END SECTION SETTINGS" +:+ nl]).
  reflexivity.
Defined.

(** X3. Diagnostics and species dialects: an input in which no line starts
    with [BEGIN] parses, without error, to the empty tree; rows outside a
    section are dropped, even rows too short to decode. *)
Theorem plain_no_begin_empty_tree (lines : list string) :
  forallb (fun l => negb (startswith l "BEGIN")) lines = true →
  Diagn.parse_hemco_diagn lines = Ok ∅ ∧
  Species.parse_hemco_species lines = Ok ∅.
Proof.
  intros H. unfold Diagn.parse_hemco_diagn, Species.parse_hemco_species.
  destruct (diagn_lines_outside lines Diagn.init eq_refl H)
    as (st1 & -> & D1).
  destruct (species_lines_outside lines Species.init eq_refl H)
    as (st2 & -> & D2).
  cbn. by rewrite D1, D2.
Qed.

Lemma plain_no_begin_empty_tree_witness :
  Diagn.parse_hemco_diagn ["EmisNO NO" +:+ nl; "END" +:+ nl] = Ok ∅ ∧
  Species.parse_hemco_species ["EmisNO NO" +:+ nl; "END" +:+ nl] = Ok ∅.
Proof.
  apply (plain_no_begin_empty_tree ["EmisNO NO" +:+ nl; "END" +:+ nl]).
  reflexivity.
Defined.

(** X4. In the three dialects with sections, after any prefix of the input
    that parsed without error the section cursor, when set, names a key of
    the tree built so far. *)
Theorem section_cursor_in_tree (pre : list string) :
  (∀ st cs, for_lines Config.step Config.init pre = Ok st →
            Config.current_section st = Some cs →
            is_Some (Config.config_dict st !! cs)) ∧
  (∀ st cs, for_lines Diagn.step Diagn.init pre = Ok st →
            Diagn.current_section st = Some cs →
            is_Some (Diagn.diagn_dict st !! cs)) ∧
  (∀ st cs, for_lines Species.step Species.init pre = Ok st →
            Species.current_section st = Some cs →
            is_Some (Species.species_dict st !! cs)).
Proof.
  split; [| split]; intros st cs Hpre Hcs.
  - by apply (config_reachable_inv pre st Hpre).
  - by apply (diagn_reachable_inv pre st Hpre).
  - by apply (species_reachable_inv pre st Hpre).
Qed.

Lemma section_cursor_in_tree_witness :
  is_Some (Config.config_dict Sample.config_st !! "EMISSIONS") ∧
  is_Some (Diagn.diagn_dict Sample.diagn_st !! "Diagnostics") ∧
  is_Some (Species.species_dict Sample.species_st !! "Species").
Proof.
  split; [| split].
  - apply (proj1 (section_cursor_in_tree Sample.config_pre)
             Sample.config_st "EMISSIONS"); vm_compute; reflexivity.
  - apply (proj1 (proj2 (section_cursor_in_tree Sample.diagn_pre))
             Sample.diagn_st "Diagnostics"); vm_compute; reflexivity.
  - apply (proj2 (proj2 (section_cursor_in_tree Sample.species_pre))
             Sample.species_st "Species"); vm_compute; reflexivity.
Defined.

(** ** What the loops can raise *)

Section Raises.

Lemma index_raise {A} (l : list A) (i : nat) (e : exn) :
  index l i = Raise e → e = IndexError.
Proof. unfold index. destruct (l !! i); [done | by intros [= <-]]. Qed.

(** A line starting with [BEGIN SECTION] has a second [SECTION]-separated
    field: the text after the marker up to the next [SECTION]. *)
Lemma begin_section_field (r : string) :
  index (split ("BEGIN SECTION" +:+ r) "SECTION") 1
  = Ok (match partition r "SECTION" with Some (a, _) => a | None => r end).
Proof. by rewrite (split_index1 _ _ "BEGIN " r). Qed.

Lemma config_begin_section_ok st line :
  startswith line "BEGIN SECTION" = true →
  ∃ r, line = "BEGIN SECTION" +:+ r ∧
    Config.step st line
    = Ok (Config.State
            (<[strip (match partition r "SECTION" with
                      | Some (a, _) => a
                      | None => r
                      end) := ∅]> (Config.config_dict st))
            (Some (strip (match partition r "SECTION" with
                          | Some (a, _) => a
                          | None => r
                          end)))
            (Config.current_sub_section st)).
Proof.
  intros H. destruct (startswith_inv _ _ H) as [r ->]. exists r.
  split; [done |]. unfold Config.step, Config.begin_section.
  assert (re_blank ("BEGIN SECTION" +:+ r) = false) as ->
    by by apply not_blank_nonspace.
  assert (is_comment ("BEGIN SECTION" +:+ r) = false) as -> by done.
  by rewrite startswith_app, begin_section_field.
Qed.

Lemma splitn1_contains (line sep : string) :
  contains line sep = true → ∃ a b, splitn 1 line sep = [a; b].
Proof.
  unfold contains. cbn [splitn].
  destruct (partition line sep) as [[a b]|]; [eauto | done].
Qed.

Lemma config_setitem2_ok st cs k v :
  is_Some (Config.config_dict st !! cs) →
  ∃ st', Config.setitem2 st cs k v = Ok st'.
Proof.
  intros [body H]. unfold Config.setitem2, getitem. rewrite H. cbn. eauto.
Qed.

(** In a state whose section cursor names a key, an iteration can fail
    only in the row branch with a sub-section cursor set: with [KeyError] on
    that name or with [AttributeError]. *)
Lemma config_step_raise st line e :
  config_inv st → Config.step st line = Raise e →
  ∃ css, Config.current_sub_section st = Some css ∧
         (e = KeyError css ∨ e = AttributeError).
Proof.
  intros Hinv. unfold Config.step.
  destruct (is_comment line) eqn:Hcm; [done |].
  destruct (re_blank line) eqn:Hb; [done |].
  destruct (startswith line "BEGIN SECTION") eqn:Hbs.
  { intros H. destruct (config_begin_section_ok st line Hbs) as (r & _ & E).
    unfold Config.step in E. rewrite Hcm, Hb, Hbs in E. congruence. }
  destruct (startswith line "END SECTION"); [done |].
  destruct (startswith line "%"); [done |].
  unfold Config.body_line.
  destruct (truthy (Config.current_section st)) eqn:Hcs; [| done].
  destruct (truthy_some _ Hcs) as (cs & Ecs & ->).
  pose proof (Hinv cs Ecs) as Hsome.
  destruct (contains line ":") eqn:Hc.
  - unfold Config.key_value.
    destruct (splitn1_contains _ _ Hc) as (a & b & ->).
    destruct (config_setitem2_ok st cs (strip a) (Config.VStr (strip b)) Hsome)
      as [st' ->]. done.
  - unfold Config.data_row.
    destruct (truthy (Config.current_sub_section st)) eqn:Hsub.
    + destruct (truthy_some _ Hsub) as (css & Ecss & ->).
      destruct Hsome as [body Hbody]. unfold getitem. rewrite Hbody.
      cbn. destruct (body !! css) as [[s|rows]|]; cbn.
      * intros [= <-]. eauto.
      * destruct (config_setitem2_ok st cs css
                    (Config.VRows (rows ++ [split_ws line]))) as [st' ->];
          [eauto | done].
      * intros [= <-]. eauto.
    + destruct (split_ws_nonblank line Hb) as (p0 & rest & ->).
      cbn. destruct (config_setitem2_ok st cs p0
                       (Config.VRows [p0 :: rest]) Hsome) as [st' ->].
      done.
Qed.

Lemma diagn_decode_raise (parts : list string) (e : exn) :
  Diagn.decode parts = Raise e → e = IndexError.
Proof.
  do 7 (destruct parts as [|? parts]; [by intros [= <-] |]). done.
Qed.

Lemma species_decode_raise (parts : list string) (e : exn) :
  Species.decode parts = Raise e → e = IndexError.
Proof.
  do 6 (destruct parts as [|? parts]; [by intros [= <-] |]). done.
Qed.

Lemma diagn_step_raise st line e :
  diagn_inv st → Diagn.step st line = Raise e → e = IndexError.
Proof.
  intros Hinv. unfold Diagn.step.
  destruct (is_comment line); [done |].
  destruct (re_blank line); [done |].
  destruct (startswith line "BEGIN").
  { unfold Diagn.begin_section, Diagn.section_name. unfold_result.
    destruct (index _ 1) eqn:E; [done |].
    intros [= <-]. by apply index_raise in E. }
  destruct (startswith line "END"); [done |].
  destruct (truthy (Diagn.current_section st)) eqn:Hcs; [| done].
  destruct (truthy_some _ Hcs) as (cs & Ecs & ->).
  destruct (Hinv cs Ecs) as [rows Hrows].
  unfold Diagn.data_row, getitem. rewrite Hrows. cbn.
  destruct (Diagn.decode (split_ws line)) as [r|e'] eqn:E; [done |].
  intros [= <-]. by apply diagn_decode_raise in E.
Qed.

Lemma species_step_raise st line e :
  species_inv st → Species.step st line = Raise e → e = IndexError.
Proof.
  intros Hinv. unfold Species.step.
  destruct (is_comment line); [done |].
  destruct (re_blank line); [done |].
  destruct (startswith line "BEGIN").
  { unfold Species.begin_section, Species.section_name. unfold_result.
    destruct (index _ 1) eqn:E; [done |].
    intros [= <-]. by apply index_raise in E. }
  destruct (startswith line "END"); [done |].
  destruct (truthy (Species.current_section st)) eqn:Hcs; [| done].
  destruct (truthy_some _ Hcs) as (cs & Ecs & ->).
  destruct (Hinv cs Ecs) as [body Hbody].
  unfold Species.data_row, Species.store_row, getitem.
  rewrite Hbody.
  destruct (Species.decode (split_ws line)) as [r|e'] eqn:E.
  - cbn. destruct (index (split_ws line) 1) eqn:E1; [done |].
    intros [= <-]. by apply index_raise in E1.
  - intros [= <-]. by apply species_decode_raise in E.
Qed.

End Raises.

(** X5. Main dialect: the only exceptions a parse can end in are
    [KeyError] and [AttributeError], both from appending a row under the
    sub-section cursor; the indexing of [split('SECTION')[1]] and of
    [parts[0]] and the unpacking of [split(':', 1)] never fail. *)
Theorem config_parse_exceptions (lines : list string) (e : exn) :
  Config.parse_hemco_config lines = Raise e →
  (∃ k, e = KeyError k) ∨ e = AttributeError.
Proof.
  unfold Config.parse_hemco_config. intros H.
  destruct (for_lines Config.step Config.init lines) as [st|e'] eqn:E;
    [done |].
  cbn in H. injection H as ->.
  apply for_lines_raise_inv in E
    as (pre & line & post & st' & _ & Hpre & Hstep).
  apply config_reachable_inv in Hpre.
  destruct (config_step_raise _ _ _ Hpre Hstep) as (css & _ & [-> | ->]);
    eauto.
Qed.

Lemma config_parse_exceptions_witness :
  (∃ k, KeyError "x" = KeyError k) ∨ KeyError "x" = AttributeError.
Proof.
  apply (config_parse_exceptions
           ["BEGIN SECTION A" +:+ nl; "x 1" +:+ nl; "BEGIN SECTION B" +:+ nl;
            "y 2" +:+ nl]).
  vm_compute. reflexivity.
Defined.

(** X6. Diagnostics and species dialects: the only exception a parse can
    end in is [IndexError]; no lookup in the tree ever misses its key. *)
Theorem plain_parse_exceptions (lines : list string) (e : exn) :
  (Diagn.parse_hemco_diagn lines = Raise e → e = IndexError) ∧
  (Species.parse_hemco_species lines = Raise e → e = IndexError).
Proof.
  unfold Diagn.parse_hemco_diagn, Species.parse_hemco_species. split.
  - destruct (for_lines Diagn.step Diagn.init lines) as [st|e'] eqn:E;
      [done |].
    cbn. intros [= ->].
    apply for_lines_raise_inv in E
      as (pre & line & post & st' & _ & Hpre & Hstep).
    apply diagn_reachable_inv in Hpre. by eapply diagn_step_raise.
  - destruct (for_lines Species.step Species.init lines) as [st|e'] eqn:E;
      [done |].
    cbn. intros [= ->].
    apply for_lines_raise_inv in E
      as (pre & line & post & st' & _ & Hpre & Hstep).
    apply species_reachable_inv in Hpre. by eapply species_step_raise.
Qed.

Lemma plain_parse_exceptions_witness :
  IndexError = IndexError ∧ IndexError = IndexError.
Proof.
  split.
  - apply (proj1 (plain_parse_exceptions
                    (Sample.diagn_pre ++ [Sample.diagn_short_row]) IndexError)).
    vm_compute. reflexivity.
  - apply (proj2 (plain_parse_exceptions
                    (Sample.species_pre ++ [Sample.diagn_short_row])
                    IndexError)).
    vm_compute. reflexivity.
Defined.

(** ** Tokens *)

Section Tokens.

Lemma append_assoc (a b c : string) : (a +:+ b) +:+ c = a +:+ (b +:+ c).
Proof. induction a as [|x a IH]; [done |]. by rewrite !append_cons, IH. Qed.

Lemma no_space_snoc (cur : string) (c : ascii) :
  no_space cur = true → isspace c = false →
  no_space (cur +:+ String c "") = true.
Proof.
  intros Hcur Hc. induction cur as [|a cur IH].
  - change ("" +:+ String c "") with (String c "").
    cbn [no_space]. by rewrite Hc.
  - rewrite append_cons. cbn [no_space] in *.
    apply andb_true_iff in Hcur as [-> Hcur]. by rewrite IH.
Qed.

Lemma is_token_nonempty (t : string) : is_token t = true → t ≠ "".
Proof. by destruct t. Qed.

Lemma is_token_truthy (t : string) : is_token t = true → truthy (Some t) = true.
Proof. by destruct t. Qed.

Lemma is_token_no_space (t : string) : is_token t = true → no_space t = true.
Proof. by destruct t. Qed.

Lemma emit_tokens (cur : string) (rest : list string) :
  no_space cur = true →
  Forall (fun t => is_token t = true) rest →
  Forall (fun t => is_token t = true) (emit cur rest).
Proof.
  intros Hcur Hrest. destruct cur as [|a cur]; [done |].
  cbn [emit]. by constructor.
Qed.

Lemma split_ws_go_tokens (s : string) : ∀ cur,
  no_space cur = true →
  Forall (fun t => is_token t = true) (split_ws_go cur s).
Proof.
  induction s as [|c s IH]; intros cur Hcur; cbn [split_ws_go].
  - by apply emit_tokens.
  - destruct (isspace c) eqn:Hc.
    + apply emit_tokens; [done |]. by apply IH.
    + apply IH. by apply no_space_snoc.
Qed.

Lemma split_ws_tokens (s : string) :
  Forall (fun t => is_token t = true) (split_ws s).
Proof. by apply split_ws_go_tokens. Qed.

(** Scanning a whitespace-free text moves it into the current run. *)
Lemma split_ws_go_run (t : string) : ∀ cur rest,
  no_space t = true →
  split_ws_go cur (t +:+ rest) = split_ws_go (cur +:+ t) rest.
Proof.
  induction t as [|c t IH]; intros cur rest Ht.
  - by rewrite append_nil_r.
  - cbn [no_space] in Ht. apply andb_true_iff in Ht as [Hc Ht].
    apply negb_true_iff in Hc.
    rewrite append_cons. cbn [split_ws_go]. rewrite Hc, IH by done.
    by rewrite append_assoc.
Qed.

Lemma split_ws_join (toks : list string) :
  Forall (fun t => is_token t = true) toks →
  split_ws (join " " toks) = toks.
Proof.
  unfold split_ws, join. induction 1 as [|t toks Ht Htoks IH]; [done |].
  cbn [String.concat]. destruct toks as [|t2 toks].
  - rewrite <- (append_nil_r t) at 1.
    rewrite split_ws_go_run by by apply is_token_no_space.
    cbn. by rewrite emit_cons by by apply is_token_nonempty.
  - rewrite split_ws_go_run by by apply is_token_no_space.
    change (" " +:+ ?x) with (String " " x). cbn [split_ws_go].
    change (isspace " ") with true. cbn match.
    rewrite IH. change ("" +:+ t) with t.
    by rewrite emit_cons by by apply is_token_nonempty.
Qed.

End Tokens.

(** X7. Every token that [line.split()] yields is non-empty and holds no
    whitespace character; the row stored for a line in any dialect is made
    of such tokens only. *)
Theorem split_ws_clean (line t : string) :
  t ∈ split_ws line → t ≠ "" ∧ no_space t = true.
Proof.
  intros Hin. pose proof (split_ws_tokens line) as H.
  rewrite Forall_forall in H. specialize (H t Hin).
  split; [by apply is_token_nonempty | by apply is_token_no_space].
Qed.

Lemma split_ws_clean_witness : "NO" ≠ "" ∧ no_space "NO" = true.
Proof.
  apply (split_ws_clean Sample.diagn_row "NO").
  vm_compute. apply list_elem_of_In. simpl. tauto.
Defined.

(** X8. Diagnostics dialect: the LongName of a decoded row keeps the words
    after the seventh token and their order; splitting it on whitespace
    gives back exactly the tokens after the seventh. *)
Theorem diagn_longname_tokens (line : string) (r : Diagn.record) :
  Diagn.decode (split_ws line) = Ok r →
  split_ws (Diagn.LongName r) = drop 7 (split_ws line).
Proof.
  intros H. pose proof (split_ws_tokens line) as Htok.
  destruct (split_ws line) as [|t0 [|t1 [|t2 [|t3 [|t4 [|t5 [|t6 more]]]]]]];
    try done.
  cbn in H. injection H as <-. cbn [Diagn.LongName drop].
  apply split_ws_join. by do 7 (apply Forall_cons in Htok as [_ Htok]).
Qed.

Lemma diagn_longname_tokens_witness :
  split_ws (Diagn.LongName
              (Diagn.Record_ "EmisNO" "NO" "-1" "-1" "-1" "2" "kg/m2/s"
                             "NO emissions"))
  = drop 7 (split_ws Sample.diagn_row).
Proof.
  apply (diagn_longname_tokens Sample.diagn_row).
  vm_compute. reflexivity.
Defined.

(** ** Main dialect: sections, keys and rows *)

Section ConfigBody.

Lemma config_is_row_inv (line : string) :
  config_is_row line = true →
  is_comment line = false ∧ re_blank line = false ∧
  startswith line "BEGIN SECTION" = false ∧
  startswith line "END SECTION" = false ∧
  startswith line "%" = false ∧ contains line ":" = false.
Proof.
  unfold config_is_row. rewrite !andb_true_iff, !negb_true_iff. tauto.
Qed.

(** The row branch with a sub-section cursor that names a list of rows. *)
Lemma config_row_append dict body cs css acc line :
  truthy (Some cs) = true → truthy (Some css) = true →
  config_is_row line = true →
  Config.step
    (Config.State (<[cs := <[css := Config.VRows acc]> body]> dict)
                  (Some cs) (Some css)) line
  = Ok (Config.State
          (<[cs := <[css := Config.VRows (acc ++ [split_ws line])]> body]> dict)
          (Some cs) (Some css)).
Proof.
  intros Hcs Hcss Hrow.
  destruct (config_is_row_inv _ Hrow) as (H1 & H2 & H3 & H4 & H5 & H6).
  rewrite config_step_body by done. unfold Config.body_line.
  cbn [Config.current_section]. rewrite Hcs, H6.
  unfold Config.data_row. cbn [Config.current_sub_section]. rewrite Hcss.
  unfold Config.setitem2, getitem.
  cbn [Config.config_dict Config.current_section Config.current_sub_section
       from_option id].
  rewrite lookup_insert_eq. cbn. rewrite lookup_insert_eq. cbn.
  by rewrite !insert_insert_eq.
Qed.

Lemma config_rows_append dict body cs css rows : ∀ acc,
  truthy (Some cs) = true → truthy (Some css) = true →
  forallb config_is_row rows = true →
  for_lines Config.step
    (Config.State (<[cs := <[css := Config.VRows acc]> body]> dict)
                  (Some cs) (Some css)) rows
  = Ok (Config.State
          (<[cs := <[css := Config.VRows (acc ++ map split_ws rows)]> body]> dict)
          (Some cs) (Some css)).
Proof.
  induction rows as [|row rows IH]; intros acc Hcs Hcss Hrows.
  - cbn. by rewrite app_nil_r.
  - cbn [forallb] in Hrows. apply andb_true_iff in Hrows as [Hrow Hrows].
    cbn [for_lines]. rewrite config_row_append by done. cbn.
    rewrite IH by done. cbn [map]. by rewrite <- app_assoc.
Qed.

Lemma all_space_app (a b : string) :
  Spec.all_space (a +:+ b) = Spec.all_space a && Spec.all_space b.
Proof.
  induction a as [|c a IH]; [done |].
  rewrite append_cons. cbn [Spec.all_space]. by rewrite IH, andb_assoc.
Qed.

Lemma lstrip_all_space (s : string) :
  Spec.all_space s = true → lstrip s = "".
Proof.
  induction s as [|c s IH]; [done |]. cbn [Spec.all_space lstrip].
  intros H. apply andb_true_iff in H as [-> H]. by apply IH.
Qed.

Lemma strip_all_space (s : string) : Spec.all_space s = true → strip s = "".
Proof. intros H. unfold strip. by rewrite lstrip_all_space. Qed.

Lemma all_space_no_section (s : string) :
  Spec.all_space s = true → partition s "SECTION" = None.
Proof.
  intros H. destruct (partition s "SECTION") as [[a b]|] eqn:E; [| done].
  apply partition_inv in E as ->.
  rewrite all_space_app in H. apply andb_true_iff in H as [_ H].
  rewrite all_space_app in H. by apply andb_true_iff in H as [H _].
Qed.

End ConfigBody.



(** X10. Main dialect: in an open section a line with a [:] that passes the
    delimiter tests never fails, also when a sub-section is current.  It
    sets, in the current section, the trimmed text before the first [:] to
    the trimmed text after it (a [#] or further [:] in the value are kept)
    and moves neither cursor. *)
Theorem config_key_value_line (pre : list string) (st : Config.state)
    (line : string) :
  for_lines Config.step Config.init pre = Ok st →
  truthy (Config.current_section st) = true →
  is_comment line = false →
  re_blank line = false →
  startswith line "BEGIN SECTION" = false →
  startswith line "END SECTION" = false →
  startswith line "%" = false →
  Spec.has_char ":" line = true →
  ∃ cs body,
    Config.current_section st = Some cs ∧
    Config.config_dict st !! cs = Some body ∧
    Config.step st line
    = Ok (Config.State
            (<[cs := <[strip (Spec.before_char ":" line)
                       := Config.VStr (strip (Spec.after_char ":" line))]> body]>
               (Config.config_dict st))
            (Some cs) (Config.current_sub_section st)).
Proof.
  intros Hpre Hcs H1 H2 H3 H4 H5 H6.
  destruct (truthy_some _ Hcs) as (cs & Ecs & Edef).
  destruct (config_reachable_inv _ _ Hpre cs Ecs) as [body Hbody].
  exists cs, body. split; [done |]. split; [done |].
  rewrite config_step_body by done. unfold Config.body_line.
  rewrite Hcs, Edef, contains_char, H6.
  unfold Config.key_value. cbn [splitn]. rewrite partition_char, H6.
  unfold Config.setitem2, getitem. rewrite Hbody, Ecs. done.
Qed.

Lemma config_key_value_line_witness :
  ∃ cs body,
    Config.current_section Sample.config_st = Some cs ∧
    Config.config_dict Sample.config_st !! cs = Some body ∧
    Config.step Sample.config_st ("ROOT: /data # path: x" +:+ nl)
    = Ok (Config.State
            (<[cs := <[strip (Spec.before_char ":" ("ROOT: /data # path: x" +:+ nl))
                       := Config.VStr
                            (strip (Spec.after_char ":"
                                      ("ROOT: /data # path: x" +:+ nl)))]> body]>
               (Config.config_dict Sample.config_st))
            (Some cs) (Config.current_sub_section Sample.config_st)).
Proof.
  apply (config_key_value_line Sample.config_pre Sample.config_st
           ("ROOT: /data # path: x" +:+ nl)); vm_compute; reflexivity.
Defined.

(** X11. Main dialect: when a section is open and no sub-section is
    current, a run of row lines is stored as one sub-section named after
    the first token of the first row; it holds the token lists of all the
    rows, in input order, whatever the first tokens of the later rows. *)
Theorem config_rows_grouped (pre : list string) (st : Config.state)
    (row : string) (rows : list string) :
  for_lines Config.step Config.init pre = Ok st →
  truthy (Config.current_section st) = true →
  truthy (Config.current_sub_section st) = false →
  config_is_row row = true →
  forallb config_is_row rows = true →
  ∃ cs body p0 more,
    Config.current_section st = Some cs ∧
    Config.config_dict st !! cs = Some body ∧
    split_ws row = p0 :: more ∧
    for_lines Config.step st (row :: rows)
    = Ok (Config.State
            (<[cs := <[p0 := Config.VRows (map split_ws (row :: rows))]> body]>
               (Config.config_dict st))
            (Some cs) (Some p0)).
Proof.
  intros Hpre Hcs Hsub Hrow Hrows.
  destruct (config_is_row_inv _ Hrow) as (H1 & H2 & H3 & H4 & H5 & H6).
  destruct (truthy_some _ Hcs) as (cs & Ecs & Edef).
  destruct (config_reachable_inv _ _ Hpre cs Ecs) as [body Hbody].
  destruct (split_ws_nonblank row H2) as (p0 & more & Hparts).
  exists cs, body, p0, more. split; [done |]. split; [done |].
  split; [done |].
  assert (truthy (Some p0) = true) as Hp0.
  { apply is_token_truthy. pose proof (split_ws_tokens row) as Ht.
    rewrite Hparts in Ht. by apply Forall_cons in Ht as [Ht _]. }
  assert (truthy (Some cs) = true) as Hcs' by by rewrite <- Ecs.
  cbn [for_lines]. rewrite config_step_body by done.
  unfold Config.body_line. rewrite Hcs, H6, Edef.
  unfold Config.data_row. rewrite Hsub, Hparts.
  unfold Config.setitem2, getitem, index. rewrite Hbody, Ecs. cbn.
  rewrite (config_rows_append _ _ _ _ rows [p0 :: more]) by done.
  by rewrite Hparts.
Qed.

Lemma config_rows_grouped_witness :
  ∃ cs body p0 more,
    Config.current_section Sample.config_st = Some cs ∧
    Config.config_dict Sample.config_st !! cs = Some body ∧
    split_ws Sample.config_row = p0 :: more ∧
    for_lines Config.step Sample.config_st
      (Sample.config_row :: ["SpeciesB CO 2" +:+ nl])
    = Ok (Config.State
            (<[cs := <[p0 := Config.VRows
                               (map split_ws
                                  (Sample.config_row :: ["SpeciesB CO 2" +:+ nl]))]>
                       body]>
               (Config.config_dict Sample.config_st))
            (Some cs) (Some p0)).
Proof.
  apply (config_rows_grouped Sample.config_pre Sample.config_st
           Sample.config_row ["SpeciesB CO 2" +:+ nl]);
    vm_compute; reflexivity.
Defined.

Section ConfigEdges.

Lemma config_kv_step st cs body line :
  Config.current_section st = Some cs →
  truthy (Some cs) = true →
  Config.config_dict st !! cs = Some body →
  is_comment line = false → re_blank line = false →
  startswith line "BEGIN SECTION" = false →
  startswith line "END SECTION" = false →
  startswith line "%" = false →
  Spec.has_char ":" line = true →
  Config.step st line
  = Ok (Config.State
          (<[cs := <[strip (Spec.before_char ":" line)
                     := Config.VStr (strip (Spec.after_char ":" line))]> body]>
             (Config.config_dict st))
          (Some cs) (Config.current_sub_section st)).
Proof.
  intros Ecs Hcs Hbody H1 H2 H3 H4 H5 H6.
  rewrite config_step_body by done. unfold Config.body_line.
  rewrite Ecs, Hcs, contains_char, H6.
  unfold Config.key_value. cbn [splitn]. rewrite partition_char, H6.
  unfold Config.setitem2, getitem. cbn [from_option id].
  rewrite Hbody, Ecs. done.
Qed.

Lemma config_begin_section_app st r :
  Config.step st ("BEGIN SECTION" +:+ r)
  = Ok (Config.State
          (<[strip (match partition r "SECTION" with
                    | Some (a, _) => a
                    | None => r
                    end) := ∅]> (Config.config_dict st))
          (Some (strip (match partition r "SECTION" with
                        | Some (a, _) => a
                        | None => r
                        end)))
          (Config.current_sub_section st)).
Proof.
  unfold Config.step, Config.begin_section.
  assert (re_blank ("BEGIN SECTION" +:+ r) = false) as ->
    by by apply not_blank_nonspace.
  assert (is_comment ("BEGIN SECTION" +:+ r) = false) as -> by done.
  by rewrite startswith_app, begin_section_field.
Qed.

End ConfigEdges.

(** X12. Main dialect: a key-value line whose key is the name of the current
    sub-section replaces that sub-section's rows by the value text; the next
    row line then fails with [AttributeError], and so does the whole parse. *)
Theorem config_key_clobbers_rows (pre post : list string) (st : Config.state)
    (kv row : string) :
  for_lines Config.step Config.init pre = Ok st →
  truthy (Config.current_section st) = true →
  truthy (Config.current_sub_section st) = true →
  is_comment kv = false →
  re_blank kv = false →
  startswith kv "BEGIN SECTION" = false →
  startswith kv "END SECTION" = false →
  startswith kv "%" = false →
  Spec.has_char ":" kv = true →
  Some (strip (Spec.before_char ":" kv)) = Config.current_sub_section st →
  config_is_row row = true →
  for_lines Config.step st [kv; row] = Raise AttributeError ∧
  Config.parse_hemco_config (pre ++ kv :: row :: post) = Raise AttributeError.
Proof.
  intros Hpre Hcs Hsub H1 H2 H3 H4 H5 H6 Hkey Hrow.
  destruct (truthy_some _ Hcs) as (cs & Ecs & Edef).
  destruct (config_reachable_inv _ _ Hpre cs Ecs) as [body Hbody].
  assert (truthy (Some cs) = true) as Hcs' by by rewrite <- Ecs.
  pose proof (config_kv_step st cs body kv Ecs Hcs' Hbody H1 H2 H3 H4 H5 H6)
    as Hkv.
  destruct (config_is_row_inv _ Hrow) as (R1 & R2 & R3 & R4 & R5 & R6).
  assert (for_lines Config.step st [kv; row] = Raise AttributeError) as Hrun.
  { cbn [for_lines]. rewrite Hkv. cbn.
    rewrite config_step_body by done. unfold Config.body_line.
    cbn [Config.current_section]. rewrite Hcs', R6.
    unfold Config.data_row. cbn [Config.current_sub_section].
    rewrite Hsub, <- Hkey. unfold getitem.
    cbn [Config.config_dict from_option id].
    rewrite lookup_insert_eq. cbn. by rewrite lookup_insert_eq. }
  split; [done |]. unfold Config.parse_hemco_config.
  change (kv :: row :: post) with ([kv; row] ++ post).
  rewrite for_lines_app, Hpre. cbn [mbind result_bind].
  rewrite for_lines_app, Hrun. done.
Qed.

Lemma config_key_clobbers_rows_witness :
  for_lines Config.step
    (Config.State {[ "A" := {[ "x" := Config.VRows [["x"; "1"]] ]} ]}
                  (Some "A") (Some "x"))
    ["x: 5" +:+ nl; "y 2" +:+ nl]
  = Raise AttributeError ∧
  Config.parse_hemco_config
    (["BEGIN SECTION A" +:+ nl; "x 1" +:+ nl]
       ++ ("x: 5" +:+ nl) :: ("y 2" +:+ nl) :: [])
  = Raise AttributeError.
Proof.
  apply (config_key_clobbers_rows
           ["BEGIN SECTION A" +:+ nl; "x 1" +:+ nl] []
           (Config.State {[ "A" := {[ "x" := Config.VRows [["x"; "1"]] ]} ]}
                         (Some "A") (Some "x"))
           ("x: 5" +:+ nl) ("y 2" +:+ nl)); vm_compute; reflexivity.
Defined.

(** X13. Main dialect: a [BEGIN SECTION] line with nothing but whitespace
    after the marker creates a section named by the empty string; the empty
    name counts as no open section, so the line after it is dropped unless
    it starts a section itself. *)
Theorem config_blank_section_name (st : Config.state) (rest line : string) :
  Spec.all_space rest = true →
  startswith line "BEGIN SECTION" = false →
  ∃ st',
    for_lines Config.step st ["BEGIN SECTION" +:+ rest; line] = Ok st' ∧
    Config.config_dict st' = <["" := ∅]> (Config.config_dict st).
Proof.
  intros Hrest Hline. cbn [for_lines].
  rewrite config_begin_section_app, all_space_no_section by done.
  rewrite strip_all_space by done. cbn [mbind result_bind].
  destruct (config_step_outside
              (Config.State (<["" := ∅]> (Config.config_dict st)) (Some "")
                            (Config.current_sub_section st))
              line eq_refl Hline) as (st' & -> & D & _).
  exists st'. by split.
Qed.

Lemma config_blank_section_name_witness :
  ∃ st',
    for_lines Config.step Config.init
      ["BEGIN SECTION" +:+ nl; "Verbose: 0" +:+ nl] = Ok st' ∧
    Config.config_dict st' = <["" := ∅]> (Config.config_dict Config.init).
Proof.
  apply (config_blank_section_name Config.init nl ("Verbose: 0" +:+ nl));
    reflexivity.
Defined.

(** ** Diagnostics and species dialects: sections and rows *)

Section PlainRows.

Lemma plain_is_row_inv (line : string) :
  plain_is_row line = true →
  is_comment line = false ∧ re_blank line = false ∧
  startswith line "BEGIN" = false ∧ startswith line "END" = false.
Proof.
  unfold plain_is_row. rewrite !andb_true_iff, !negb_true_iff. tauto.
Qed.

Lemma species_decode_short (parts : list string) :
  length parts < 6 → Species.decode parts = Raise IndexError.
Proof.
  intros H. do 6 (destruct parts as [|? parts]; [done |]).
  simpl in H. lia.
Qed.

Lemma diagn_row_append dict cs acc line r :
  truthy (Some cs) = true →
  plain_is_row line = true →
  Diagn.decode (split_ws line) = Ok r →
  Diagn.step (Diagn.State (<[cs := acc]> dict) (Some cs)) line
  = Ok (Diagn.State (<[cs := acc ++ [r]]> dict) (Some cs)).
Proof.
  intros Hcs Hrow Hr.
  destruct (plain_is_row_inv _ Hrow) as (H1 & H2 & H3 & H4).
  rewrite diagn_step_row by done.
  unfold Diagn.data_row, getitem.
  cbn [Diagn.diagn_dict Diagn.current_section from_option id].
  rewrite lookup_insert_eq, Hr. cbn. by rewrite insert_insert_eq.
Qed.

Lemma diagn_rows_append dict cs rows : ∀ acc recs,
  truthy (Some cs) = true →
  forallb plain_is_row rows = true →
  map (fun line => Diagn.decode (split_ws line)) rows = map Ok recs →
  for_lines Diagn.step (Diagn.State (<[cs := acc]> dict) (Some cs)) rows
  = Ok (Diagn.State (<[cs := acc ++ recs]> dict) (Some cs)).
Proof.
  induction rows as [|row rows IH]; intros acc recs Hcs Hrows Hdec.
  - destruct recs; [| done]. cbn. by rewrite app_nil_r.
  - destruct recs as [|r recs]; [done |].
    cbn [map] in Hdec. injection Hdec as Hr Hdec.
    cbn [forallb] in Hrows. apply andb_true_iff in Hrows as [Hrow Hrows].
    cbn [for_lines]. rewrite (diagn_row_append _ _ _ _ r) by done. cbn.
    rewrite (IH _ recs) by done. by rewrite <- app_assoc.
Qed.

End PlainRows.

(** X14. Diagnostics and species dialects: a line that starts with [BEGIN]
    and holds no space character, such as a bare [BEGIN], stops the parse
    with [IndexError]: there is no second field to take the name from. *)
Theorem begin_without_name_faults (line : string) :
  startswith line "BEGIN" = true →
  Spec.has_char " " line = false →
  (∀ st, Diagn.step st line = Raise IndexError) ∧
  (∀ st, Species.step st line = Raise IndexError).
Proof.
  intros Hb Hsp.
  assert (index (split line " ") 1 = Raise IndexError) as Hidx
    by by apply split_index1_none, partition_absent_char.
  destruct (startswith_inv _ _ Hb) as [r Hr].
  assert (re_blank line = false) as Hbl
    by (rewrite Hr; by apply not_blank_nonspace).
  assert (is_comment line = false) as Hc by by rewrite Hr.
  split; intros st.
  - unfold Diagn.step, Diagn.begin_section, Diagn.section_name.
    by rewrite Hc, Hbl, Hb, Hidx.
  - unfold Species.step, Species.begin_section, Species.section_name.
    by rewrite Hc, Hbl, Hb, Hidx.
Qed.

Lemma begin_without_name_faults_witness :
  (∀ st, Diagn.step st ("BEGIN" +:+ nl) = Raise IndexError) ∧
  (∀ st, Species.step st ("BEGIN" +:+ nl) = Raise IndexError).
Proof.
  apply (begin_without_name_faults ("BEGIN" +:+ nl)); reflexivity.
Defined.

(** X15. Species dialect: a row of fewer than six tokens in an open section
    stops the iteration, and the parse, with [IndexError]; nothing is stored
    for it. *)
Theorem species_short_row_faults (pre post : list string) (st : Species.state)
    (line : string) :
  for_lines Species.step Species.init pre = Ok st →
  truthy (Species.current_section st) = true →
  plain_is_row line = true →
  length (split_ws line) < 6 →
  Species.step st line = Raise IndexError ∧
  Species.parse_hemco_species (pre ++ line :: post) = Raise IndexError.
Proof.
  intros Hpre Hcs Hrow Hlen.
  destruct (plain_is_row_inv _ Hrow) as (H1 & H2 & H3 & H4).
  assert (Species.step st line = Raise IndexError) as Hstep.
  { rewrite species_step_row by done.
    unfold Species.data_row, Species.store_row.
    by rewrite species_decode_short. }
  split; [done |]. unfold Species.parse_hemco_species.
  by rewrite (for_lines_raise _ _ _ _ _ _ _ Hpre Hstep).
Qed.

Lemma species_short_row_faults_witness :
  Species.step Sample.species_st ("1 NO2 46.0" +:+ nl) = Raise IndexError ∧
  Species.parse_hemco_species
    (Sample.species_pre ++ ("1 NO2 46.0" +:+ nl) :: ["END" +:+ nl])
  = Raise IndexError.
Proof.
  apply (species_short_row_faults Sample.species_pre ["END" +:+ nl]
           Sample.species_st ("1 NO2 46.0" +:+ nl));
    vm_compute; first [reflexivity | lia].
Defined.

(** X16. Species dialect: of two rows of one section with the same second
    token the later one wins; after both, the section holds one entry for
    that symbol, built from the later row, as if the earlier row were not
    there. *)
Theorem species_duplicate_symbol (pre : list string) (st : Species.state)
    (line1 line2 a0 a2 a3 a4 a5 b0 b2 b3 b4 b5 key : string)
    (ea eb : list string) :
  for_lines Species.step Species.init pre = Ok st →
  truthy (Species.current_section st) = true →
  plain_is_row line1 = true →
  plain_is_row line2 = true →
  split_ws line1 = a0 :: key :: a2 :: a3 :: a4 :: a5 :: ea →
  split_ws line2 = b0 :: key :: b2 :: b3 :: b4 :: b5 :: eb →
  ∃ cs body,
    Species.current_section st = Some cs ∧
    Species.species_dict st !! cs = Some body ∧
    for_lines Species.step st [line1; line2]
    = Ok (Species.State
            (<[cs := <[key := Species.Record_ b2 b3 b4 b5]> body]>
               (Species.species_dict st))
            (Some cs)) ∧
    for_lines Species.step st [line1; line2] = Species.step st line2.
Proof.
  intros Hpre Hcs Hr1 Hr2 Hp1 Hp2.
  destruct (plain_is_row_inv _ Hr1) as (A1 & A2 & A3 & A4).
  destruct (plain_is_row_inv _ Hr2) as (B1 & B2 & B3 & B4).
  destruct (truthy_some _ Hcs) as (cs & Ecs & Edef).
  destruct (species_reachable_inv _ _ Hpre cs Ecs) as [body Hbody].
  assert (truthy (Some cs) = true) as Hcs' by by rewrite <- Ecs.
  exists cs, body. split; [done |]. split; [done |].
  assert (Species.step st line2
          = Ok (Species.State
                  (<[cs := <[key := Species.Record_ b2 b3 b4 b5]> body]>
                     (Species.species_dict st))
                  (Some cs))) as E2.
  { rewrite species_step_row by done. rewrite Edef.
    unfold Species.data_row, Species.store_row, getitem.
    rewrite Hp2, Hbody, Ecs. done. }
  rewrite E2. cut (for_lines Species.step st [line1; line2]
                   = Ok (Species.State
                           (<[cs := <[key := Species.Record_ b2 b3 b4 b5]> body]>
                              (Species.species_dict st))
                           (Some cs))); [by intros -> |].
  cbn [for_lines]. rewrite species_step_row by done. rewrite Edef.
  unfold Species.data_row at 1, Species.store_row, getitem.
  rewrite Hp1, Hbody, Ecs. cbn.
  rewrite species_step_row by done.
  unfold Species.data_row, Species.store_row, getitem.
  cbn [Species.species_dict Species.current_section from_option id].
  rewrite Hp2, lookup_insert_eq. cbn. by rewrite !insert_insert_eq.
Qed.

Lemma species_duplicate_symbol_witness :
  ∃ cs body,
    Species.current_section Sample.species_st = Some cs ∧
    Species.species_dict Sample.species_st !! cs = Some body ∧
    for_lines Species.step Sample.species_st
      [Sample.species_row; "7 NO2 47.0 2e-5 1.0 3.5" +:+ nl]
    = Ok (Species.State
            (<[cs := <["NO2" := Species.Record_ "47.0" "2e-5" "1.0" "3.5"]> body]>
               (Species.species_dict Sample.species_st))
            (Some cs)) ∧
    for_lines Species.step Sample.species_st
      [Sample.species_row; "7 NO2 47.0 2e-5 1.0 3.5" +:+ nl]
    = Species.step Sample.species_st ("7 NO2 47.0 2e-5 1.0 3.5" +:+ nl).
Proof.
  apply (species_duplicate_symbol Sample.species_pre Sample.species_st
           Sample.species_row ("7 NO2 47.0 2e-5 1.0 3.5" +:+ nl)
           "1" "46.0" "1e-5" "0.0" "3.4" "7" "47.0" "2e-5" "1.0" "3.5" "NO2"
           [] []); vm_compute; reflexivity.
Defined.

(** X17. Diagnostics dialect: a run of rows that each decode, read in an
    open section, appends their records to the section's list in input
    order, after the records already there; one record per row. *)
Theorem diagn_rows_in_order (pre : list string) (st : Diagn.state)
    (rows : list string) (recs : list Diagn.record) :
  for_lines Diagn.step Diagn.init pre = Ok st →
  truthy (Diagn.current_section st) = true →
  forallb plain_is_row rows = true →
  map (fun line => Diagn.decode (split_ws line)) rows = map Ok recs →
  ∃ cs old,
    Diagn.current_section st = Some cs ∧
    Diagn.diagn_dict st !! cs = Some old ∧
    for_lines Diagn.step st rows
    = Ok (Diagn.State (<[cs := old ++ recs]> (Diagn.diagn_dict st)) (Some cs)) ∧
    length recs = length rows.
Proof.
  intros Hpre Hcs Hrows Hdec.
  destruct (truthy_some _ Hcs) as (cs & Ecs & Edef).
  destruct (diagn_reachable_inv _ _ Hpre cs Ecs) as [old Hold].
  assert (truthy (Some cs) = true) as Hcs' by by rewrite <- Ecs.
  exists cs, old. split; [done |]. split; [done |]. split.
  - pose proof (diagn_rows_append (Diagn.diagn_dict st) cs rows old recs
                  Hcs' Hrows Hdec) as H.
    rewrite (insert_id _ _ _ Hold) in H. rewrite <- Ecs in H at 1.
    by destruct st.
  - apply (f_equal length) in Hdec. by rewrite !length_map in Hdec.
Qed.

Lemma diagn_rows_in_order_witness :
  ∃ cs old,
    Diagn.current_section Sample.diagn_st = Some cs ∧
    Diagn.diagn_dict Sample.diagn_st !! cs = Some old ∧
    for_lines Diagn.step Sample.diagn_st
      [Sample.diagn_row; "EmisCO CO 0 -1 -1 2 kg/m2/s" +:+ nl]
    = Ok (Diagn.State
            (<[cs := old ++
                     [Diagn.Record_ "EmisNO" "NO" "-1" "-1" "-1" "2" "kg/m2/s"
                                    "NO emissions";
                      Diagn.Record_ "EmisCO" "CO" "0" "-1" "-1" "2" "kg/m2/s"
                                    ""]]>
               (Diagn.diagn_dict Sample.diagn_st))
            (Some cs)) ∧
    length [Diagn.Record_ "EmisNO" "NO" "-1" "-1" "-1" "2" "kg/m2/s"
                          "NO emissions";
            Diagn.Record_ "EmisCO" "CO" "0" "-1" "-1" "2" "kg/m2/s" ""]
    = length [Sample.diagn_row; "EmisCO CO 0 -1 -1 2 kg/m2/s" +:+ nl].
Proof.
  apply (diagn_rows_in_order Sample.diagn_pre Sample.diagn_st
           [Sample.diagn_row; "EmisCO CO 0 -1 -1 2 kg/m2/s" +:+ nl]);
    vm_compute; reflexivity.
Defined.

(** ** Trimming and cutting *)

Section Trim.

Lemma lstrip_length (s : string) :
  String.length (lstrip s) <= String.length s.
Proof.
  induction s as [|c s IH]; [done |]. cbn [lstrip].
  destruct (isspace c); cbn [String.length]; lia.
Qed.

Lemma lstrip_idem (s : string) : lstrip (lstrip s) = lstrip s.
Proof.
  induction s as [|c s IH]; [done |]. cbn [lstrip].
  destruct (isspace c) eqn:E; [done |]. cbn [lstrip]. by rewrite E.
Qed.

Lemma rstrip_idem (s : string) : rstrip (rstrip s) = rstrip s.
Proof.
  induction s as [|c s IH]; [done |]. cbn [rstrip].
  destruct (rstrip s) as [|b r] eqn:E.
  - destruct (isspace c) eqn:Ec; [done |]. cbn [rstrip]. by rewrite Ec.
  - cbn [rstrip] in *. by rewrite IH.
Qed.

Lemma lstrip_rstrip (t : string) :
  lstrip t = t → lstrip (rstrip t) = rstrip t.
Proof.
  destruct t as [|c t]; [done |]. cbn [lstrip rstrip].
  destruct (isspace c) eqn:Ec.
  - intros H. pose proof (lstrip_length t) as Hlen.
    rewrite H in Hlen. cbn [String.length] in Hlen. lia.
  - intros _. destruct (rstrip t); cbn [lstrip]; by rewrite Ec.
Qed.

Lemma strip_idem (s : string) : strip (strip s) = strip s.
Proof.
  unfold strip. rewrite lstrip_rstrip by apply lstrip_idem.
  apply rstrip_idem.
Qed.

Lemma has_char_lstrip (c : ascii) (s : string) :
  Spec.has_char c s = false → Spec.has_char c (lstrip s) = false.
Proof.
  induction s as [|a s IH]; [done |]. cbn [lstrip].
  destruct (isspace a); [| done]. cbn [Spec.has_char].
  intros H. apply orb_false_iff in H as [_ H]. by apply IH.
Qed.

Lemma has_char_rstrip (c : ascii) (s : string) :
  Spec.has_char c s = false → Spec.has_char c (rstrip s) = false.
Proof.
  induction s as [|a s IH]; [done |]. cbn [Spec.has_char rstrip].
  intros H. apply orb_false_iff in H as [Ha H]. specialize (IH H).
  destruct (rstrip s) as [|b r].
  - destruct (isspace a); [done |]. cbn [Spec.has_char]. by rewrite Ha.
  - cbn [Spec.has_char] in *. by rewrite Ha, IH.
Qed.

Lemma has_char_strip (c : ascii) (s : string) :
  Spec.has_char c s = false → Spec.has_char c (strip s) = false.
Proof. intros H. by apply has_char_rstrip, has_char_lstrip. Qed.

Lemma has_char_before_char (c : ascii) (s : string) :
  Spec.has_char c (Spec.before_char c s) = false.
Proof.
  induction s as [|a s IH]; [done |]. cbn [Spec.before_char].
  destruct (Ascii.eqb a c) eqn:E; [done |]. cbn [Spec.has_char].
  by rewrite E, IH.
Qed.

(** The text before the leftmost occurrence holds no occurrence. *)
Lemma after_prefix_extend (x p r y : string) :
  after_prefix x p = Some r → after_prefix (x +:+ y) p = Some (r +:+ y).
Proof.
  intros H. apply after_prefix_inv in H as ->.
  by rewrite append_assoc, after_prefix_app.
Qed.

Lemma partition_left_clean (s sep : string) : ∀ a b,
  sep ≠ "" → partition s sep = Some (a, b) → partition a sep = None.
Proof.
  induction s as [|c s IH]; intros a b Hsep.
  - by rewrite partition_empty.
  - cbn [partition]. destruct (after_prefix (String c s) sep) as [r|] eqn:E.
    + intros [= <- <-]. by apply partition_empty.
    + destruct (partition s sep) as [[a' b']|] eqn:P; [| done].
      intros [= <- <-]. cbn [partition].
      destruct (after_prefix (String c a') sep) as [r|] eqn:E'.
      * apply partition_inv in P. rewrite P, <- append_cons in E.
        by rewrite (after_prefix_extend _ _ r _ E') in E.
      * by rewrite (IH a' b').
Qed.

Lemma splitn_nonempty (n : nat) (s sep : string) : splitn n s sep ≠ [].
Proof. destruct n; cbn; [done |]. by destruct (partition s sep) as [[? ?]|]. Qed.

Lemma join_splitn (n : nat) : ∀ s sep, join sep (splitn n s sep) = s.
Proof.
  induction n as [|n IH]; intros s sep; [done |]. cbn [splitn].
  destruct (partition s sep) as [[a b]|] eqn:P; [| done].
  unfold join in *. cbn [String.concat].
  pose proof (splitn_nonempty n b sep) as Hne.
  destruct (splitn n b sep) as [|x xs] eqn:E; [done |].
  rewrite <- E, IH. symmetry. by apply partition_inv.
Qed.

Lemma splitn_pieces (n : nat) : ∀ s sep,
  sep ≠ "" → String.length s <= n →
  Forall (fun p => contains p sep = false) (splitn n s sep).
Proof.
  induction n as [|n IH]; intros s sep Hsep Hlen.
  - destruct s; [| cbn in Hlen; lia]. constructor; [| done].
    unfold contains. by rewrite partition_empty.
  - cbn [splitn]. destruct (partition s sep) as [[a b]|] eqn:P.
    + constructor.
      * unfold contains. by rewrite (partition_left_clean _ _ _ _ Hsep P).
      * apply IH; [done |].
        pose proof (partition_shorter _ _ _ _ Hsep P). lia.
    + constructor; [| done]. unfold contains. by rewrite P.
Qed.

End Trim.

(** X18. [split] on a non-empty separator, as used on [SECTION], on a space
    and on [#]: the pieces joined with the separator give the text back,
    and no piece holds the separator, so the text is cut at every
    occurrence found from the left. *)
Theorem split_join_pieces (s sep : string) :
  sep ≠ "" →
  join sep (split s sep) = s ∧
  Forall (fun p => contains p sep = false) (split s sep).
Proof.
  intros Hsep. split; [apply join_splitn |].
  by apply splitn_pieces.
Qed.

Lemma split_join_pieces_witness :
  join "SECTION" (split ("BEGIN SECTION MY SECTION" +:+ nl) "SECTION")
  = "BEGIN SECTION MY SECTION" +:+ nl ∧
  Forall (fun p => contains p "SECTION" = false)
         (split ("BEGIN SECTION MY SECTION" +:+ nl) "SECTION").
Proof.
  apply (split_join_pieces ("BEGIN SECTION MY SECTION" +:+ nl) "SECTION").
  discriminate.
Defined.

(** ** Grid dialect: the entries of the result *)

Section GridEntries.

Lemma grid_parse_tree (lines : list string) :
  Grid.parse_hemco_grid lines = Ok (Spec.grid_tree lines).
Proof.
  unfold Grid.parse_hemco_grid, Spec.grid_tree.
  generalize (∅ : gmap string string) as d.
  induction lines as [|line lines IH]; intros d; [done |].
  cbn [for_lines fold_left]. rewrite grid_step_spec. cbn. apply IH.
Qed.

Lemma grid_tree_snoc (lines : list string) (line : string) :
  Spec.grid_tree (lines ++ [line])
  = match Spec.grid_entry line with
    | Some (k, v) => <[k := v]> (Spec.grid_tree lines)
    | None => Spec.grid_tree lines
    end.
Proof. unfold Spec.grid_tree. by rewrite fold_left_app. Qed.

Lemma grid_entry_clean (line k v : string) :
  Spec.grid_entry line = Some (k, v) →
  strip k = k ∧ strip v = v ∧
  Spec.has_char ":" k = false ∧ Spec.has_char "#" v = false.
Proof.
  unfold Spec.grid_entry.
  destruct (is_comment line || Spec.all_space line); [done |].
  destruct (Spec.has_char ":" line); [| done].
  intros [= <- <-]. rewrite !strip_idem.
  split; [done |]. split; [done |].
  split; apply has_char_strip, has_char_before_char.
Qed.

End GridEntries.

(** X19. Grid dialect: when several lines give the same key, the last one
    wins: the value stored under a key is the value of the last line that
    contributes that key. *)
Theorem grid_last_entry_wins (l1 l2 : list string) (line k v : string) :
  Spec.grid_entry line = Some (k, v) →
  forallb (fun l => match Spec.grid_entry l with
                    | Some (k', _) => negb (String.eqb k' k)
                    | None => true
                    end) l2 = true →
  ∃ d, Grid.parse_hemco_grid (l1 ++ line :: l2) = Ok d ∧ d !! k = Some v.
Proof.
  intros Hline Hrest. eexists. split; [apply grid_parse_tree |].
  revert l1. induction l2 as [|l l2 IH] using rev_ind; intros l1.
  - rewrite grid_tree_snoc, Hline. by rewrite lookup_insert_eq.
  - rewrite forallb_app in Hrest. apply andb_true_iff in Hrest as [H2 Hl].
    change (line :: l2 ++ [l]) with ((line :: l2) ++ [l]).
    rewrite app_assoc, grid_tree_snoc. cbn [forallb] in Hl.
    destruct (Spec.grid_entry l) as [[k' v']|]; [| by apply IH].
    rewrite andb_true_r in Hl. apply negb_true_iff in Hl.
    apply String.eqb_neq in Hl. rewrite lookup_insert_ne by done.
    by apply IH.
Qed.

Lemma grid_last_entry_wins_witness :
  ∃ d, Grid.parse_hemco_grid
         (["XMIN: -180" +:+ nl] ++ ("XMIN: 0 # shifted" +:+ nl)
            :: ["XMAX: 180" +:+ nl]) = Ok d ∧
       d !! "XMIN" = Some "0".
Proof.
  apply (grid_last_entry_wins ["XMIN: -180" +:+ nl] ["XMAX: 180" +:+ nl]
           ("XMIN: 0 # shifted" +:+ nl) "XMIN" "0"); reflexivity.
Defined.

(** X20. Grid dialect: a key is in the result exactly when some line that
    is neither a comment nor blank and holds a [:] has it as its trimmed
    text before the first [:]. *)
Theorem grid_key_present_iff (lines : list string) (k : string) :
  ∃ d, Grid.parse_hemco_grid lines = Ok d ∧
       (is_Some (d !! k) ↔
        ∃ line v, line ∈ lines ∧ Spec.grid_entry line = Some (k, v)).
Proof.
  eexists. split; [apply grid_parse_tree |].
  induction lines as [|l lines IH] using rev_ind.
  - change (Spec.grid_tree []) with (∅ : gmap string string). split.
    + intros [v H]. by rewrite lookup_empty in H.
    + intros (line & v & Hin & _). by apply elem_of_nil in Hin.
  - rewrite grid_tree_snoc. destruct (Spec.grid_entry l) as [[k' v']|] eqn:E.
    + destruct (decide (k' = k)) as [-> | Hne].
      * rewrite lookup_insert_eq. split; [| eauto].
        intros _. exists l, v'. split; [| done].
        apply elem_of_app. right. by apply list_elem_of_singleton.
      * rewrite lookup_insert_ne by done. rewrite IH. split.
        -- intros (line & v & Hin & H). exists line, v. split; [| done].
           apply elem_of_app. by left.
        -- intros (line & v & Hin & H). apply elem_of_app in Hin as [Hin | Hin].
           ++ eauto.
           ++ apply list_elem_of_singleton in Hin as ->. congruence.
    + rewrite IH. split.
      * intros (line & v & Hin & H). exists line, v. split; [| done].
        apply elem_of_app. by left.
      * intros (line & v & Hin & H). apply elem_of_app in Hin as [Hin | Hin].
        -- eauto.
        -- apply list_elem_of_singleton in Hin as ->. congruence.
Qed.

(** X21. Grid dialect: every key and every value of the result is trimmed
    (stripping it again changes nothing), no key holds a [:] and no value
    holds a [#]. *)
Theorem grid_entries_trimmed (lines : list string) :
  ∃ d, Grid.parse_hemco_grid lines = Ok d ∧
       ∀ k v, d !! k = Some v →
              strip k = k ∧ strip v = v ∧
              Spec.has_char ":" k = false ∧ Spec.has_char "#" v = false.
Proof.
  eexists. split; [apply grid_parse_tree |].
  induction lines as [|l lines IH] using rev_ind.
  - change (Spec.grid_tree []) with (∅ : gmap string string).
    intros k v H. by rewrite lookup_empty in H.
  - rewrite grid_tree_snoc. destruct (Spec.grid_entry l) as [[k' v']|] eqn:E;
      [| done].
    intros k v. destruct (decide (k' = k)) as [-> | Hne].
    + rewrite lookup_insert_eq. intros [= <-]. by eapply grid_entry_clean.
    + rewrite lookup_insert_ne by done. apply IH.
Qed.

(** ** Whole sections *)

Section WholeSections.

Lemma second_field_char (line : string) :
  Spec.has_char " " line = true →
  index (split line " ") 1
  = Ok (Spec.before_char " " (Spec.after_char " " line)).
Proof.
  intros H.
  rewrite (split_index1 line " " (Spec.before_char " " line)
             (Spec.after_char " " line)) by (done || by rewrite partition_char, H).
  rewrite partition_char.
  destruct (Spec.has_char " " (Spec.after_char " " line)) eqn:E; [done |].
  by rewrite before_char_absent.
Qed.

Lemma config_first_row dict body cs sub row p0 more :
  truthy (Some cs) = true → truthy sub = false →
  dict !! cs = Some body →
  config_is_row row = true →
  split_ws row = p0 :: more →
  Config.step (Config.State dict (Some cs) sub) row
  = Ok (Config.State (<[cs := <[p0 := Config.VRows [p0 :: more]]> body]> dict)
                     (Some cs) (Some p0)).
Proof.
  intros Hcs Hsub Hbody Hrow Hparts.
  destruct (config_is_row_inv _ Hrow) as (H1 & H2 & H3 & H4 & H5 & H6).
  rewrite config_step_body by done. unfold Config.body_line.
  cbn [Config.current_section]. rewrite Hcs, H6.
  unfold Config.data_row. cbn [Config.current_sub_section].
  rewrite Hsub, Hparts. unfold Config.setitem2, getitem, index.
  cbn [Config.config_dict from_option id]. by rewrite Hbody.
Qed.

Lemma config_end_section_app st tail :
  Config.step st ("END SECTION" +:+ tail)
  = Ok (Config.State (Config.config_dict st) None None).
Proof.
  unfold Config.step.
  assert (re_blank ("END SECTION" +:+ tail) = false) as ->
    by by apply not_blank_nonspace.
  assert (is_comment ("END SECTION" +:+ tail) = false) as -> by done.
  assert (startswith ("END SECTION" +:+ tail) "BEGIN SECTION" = false) as ->
    by done.
  by rewrite startswith_app.
Qed.

Lemma diagn_end_app st tail :
  Diagn.step st ("END" +:+ tail) = Ok (Diagn.State (Diagn.diagn_dict st) None).
Proof.
  unfold Diagn.step.
  assert (re_blank ("END" +:+ tail) = false) as ->
    by by apply not_blank_nonspace.
  assert (is_comment ("END" +:+ tail) = false) as -> by done.
  assert (startswith ("END" +:+ tail) "BEGIN" = false) as -> by done.
  by rewrite startswith_app.
Qed.

End WholeSections.

(** X22. Diagnostics and species dialects: a line that starts with [BEGIN]
    and holds a space never fails.  The section it opens is named by the
    trimmed text between the first and the second space of the line (up to
    the end of the line when there is no second space) and starts empty,
    discarding what an earlier section of that name held. *)
Theorem plain_begin_section_resets (line : string) :
  startswith line "BEGIN" = true →
  Spec.has_char " " line = true →
  (∀ st, Diagn.step st line
         = Ok (Diagn.State
                 (<[strip (Spec.before_char " " (Spec.after_char " " line))
                    := []]> (Diagn.diagn_dict st))
                 (Some (strip (Spec.before_char " " (Spec.after_char " " line))))))
  ∧
  (∀ st, Species.step st line
         = Ok (Species.State
                 (<[strip (Spec.before_char " " (Spec.after_char " " line))
                    := ∅]> (Species.species_dict st))
                 (Some (strip (Spec.before_char " " (Spec.after_char " " line)))))).
Proof.
  intros Hb Hsp. pose proof (second_field_char line Hsp) as Hidx.
  destruct (startswith_inv _ _ Hb) as [r Hr].
  assert (re_blank line = false) as Hbl
    by (rewrite Hr; by apply not_blank_nonspace).
  assert (is_comment line = false) as Hc by by rewrite Hr.
  split; intros st.
  - unfold Diagn.step, Diagn.begin_section, Diagn.section_name.
    by rewrite Hc, Hbl, Hb, Hidx.
  - unfold Species.step, Species.begin_section, Species.section_name.
    by rewrite Hc, Hbl, Hb, Hidx.
Qed.

Lemma plain_begin_section_resets_witness :
  (∀ st, Diagn.step st ("BEGIN My Section" +:+ nl)
         = Ok (Diagn.State
                 (<[strip (Spec.before_char " "
                             (Spec.after_char " " ("BEGIN My Section" +:+ nl)))
                    := []]> (Diagn.diagn_dict st))
                 (Some (strip (Spec.before_char " "
                                 (Spec.after_char " "
                                    ("BEGIN My Section" +:+ nl)))))))
  ∧
  (∀ st, Species.step st ("BEGIN My Section" +:+ nl)
         = Ok (Species.State
                 (<[strip (Spec.before_char " "
                             (Spec.after_char " " ("BEGIN My Section" +:+ nl)))
                    := ∅]> (Species.species_dict st))
                 (Some (strip (Spec.before_char " "
                                 (Spec.after_char " "
                                    ("BEGIN My Section" +:+ nl))))))).
Proof.
  apply (plain_begin_section_resets ("BEGIN My Section" +:+ nl)); reflexivity.
Defined.

(** X23. Main dialect, a whole file of one section: [BEGIN SECTION name],
    one or more row lines, [END SECTION].  The result is the tree with the
    one section [name] holding one sub-section, named after the first token
    of the first row, with the token lists of all the rows in order. *)
Theorem config_section_of_rows (rest tail row p0 : string)
    (more : list string) (rows : list string) :
  contains rest "SECTION" = false →
  truthy (Some (strip rest)) = true →
  config_is_row row = true →
  forallb config_is_row rows = true →
  split_ws row = p0 :: more →
  Config.parse_hemco_config
    (("BEGIN SECTION" +:+ rest) :: row :: rows ++ ["END SECTION" +:+ tail])
  = Ok {[ strip rest :=
            {[ p0 := Config.VRows (map split_ws (row :: rows)) ]} ]}.
Proof.
  intros Hrest Hname Hrow Hrows Hparts.
  assert (truthy (Some p0) = true) as Hp0.
  { apply is_token_truthy. pose proof (split_ws_tokens row) as Ht.
    rewrite Hparts in Ht. by apply Forall_cons in Ht as [Ht _]. }
  unfold Config.parse_hemco_config. cbn [for_lines].
  rewrite config_begin_section_app. unfold contains in Hrest.
  destruct (partition rest "SECTION") as [[a b]|]; [done |].
  cbn [mbind result_bind Config.init Config.config_dict
       Config.current_sub_section].
  rewrite (config_first_row _ ∅ _ _ _ p0 more)
    by (done || by rewrite lookup_insert_eq).
  cbn [mbind result_bind]. rewrite insert_insert_eq.
  rewrite for_lines_app, config_rows_append by done.
  cbn [mbind result_bind for_lines]. rewrite config_end_section_app.
  cbn. by rewrite Hparts, !insert_empty.
Qed.

Lemma config_section_of_rows_witness :
  Config.parse_hemco_config
    (("BEGIN SECTION" +:+ (" BASE EMISSIONS" +:+ nl))
       :: ("0 EDGAR_NO NO 1" +:+ nl)
       :: ["0 EDGAR_CO CO 2" +:+ nl; "1 GFED_CO CO 3" +:+ nl]
       ++ ["END SECTION" +:+ (" BASE EMISSIONS" +:+ nl)])
  = Ok {[ strip (" BASE EMISSIONS" +:+ nl) :=
            {[ "0" := Config.VRows
                        (map split_ws
                           (("0 EDGAR_NO NO 1" +:+ nl)
                              :: ["0 EDGAR_CO CO 2" +:+ nl;
                                  "1 GFED_CO CO 3" +:+ nl])) ]} ]}.
Proof.
  apply (config_section_of_rows (" BASE EMISSIONS" +:+ nl)
           (" BASE EMISSIONS" +:+ nl) ("0 EDGAR_NO NO 1" +:+ nl) "0"
           ["EDGAR_NO"; "NO"; "1"]
           ["0 EDGAR_CO CO 2" +:+ nl; "1 GFED_CO CO 3" +:+ nl]);
    reflexivity.
Defined.

(** X24. Diagnostics dialect, a whole file of one section: a [BEGIN] line
    with a one-word name, row lines that each decode, a line starting with
    [END].  The result is the tree with the one section holding the decoded
    records, one per row, in input order. *)
Theorem diagn_section_of_rows (name tail : string) (rows : list string)
    (recs : list Diagn.record) :
  Spec.has_char " " name = false →
  truthy (Some (strip name)) = true →
  forallb plain_is_row rows = true →
  map (fun line => Diagn.decode (split_ws line)) rows = map Ok recs →
  Diagn.parse_hemco_diagn (("BEGIN " +:+ name) :: rows ++ ["END" +:+ tail])
  = Ok {[ strip name := recs ]}.
Proof.
  intros Hname Htruthy Hrows Hdec.
  unfold Diagn.parse_hemco_diagn. cbn [for_lines].
  assert (Diagn.step Diagn.init ("BEGIN " +:+ name)
          = Ok (Diagn.State (<[strip name := []]> ∅) (Some (strip name))))
    as ->.
  { unfold Diagn.step, Diagn.begin_section, Diagn.section_name.
    assert (re_blank ("BEGIN " +:+ name) = false) as ->
      by by apply not_blank_nonspace.
    assert (is_comment ("BEGIN " +:+ name) = false) as -> by done.
    assert (startswith ("BEGIN " +:+ name) "BEGIN" = true) as -> by done.
    change ("BEGIN " +:+ name) with ("BEGIN" +:+ " " +:+ name).
    by rewrite second_field_last. }
  cbn [mbind result_bind].
  rewrite for_lines_app, (diagn_rows_append _ _ _ _ recs) by done.
  cbn [mbind result_bind for_lines]. rewrite diagn_end_app.
  cbn. by rewrite insert_empty.
Qed.

Lemma diagn_section_of_rows_witness :
  Diagn.parse_hemco_diagn
    (("BEGIN " +:+ ("Diagnostics" +:+ nl))
       :: [Sample.diagn_row; "EmisCO CO 0 -1 -1 2 kg/m2/s" +:+ nl]
       ++ ["END" +:+ ("" +:+ nl)])
  = Ok {[ strip ("Diagnostics" +:+ nl) :=
            [Diagn.Record_ "EmisNO" "NO" "-1" "-1" "-1" "2" "kg/m2/s"
                           "NO emissions";
             Diagn.Record_ "EmisCO" "CO" "0" "-1" "-1" "2" "kg/m2/s" ""] ]}.
Proof.
  apply (diagn_section_of_rows ("Diagnostics" +:+ nl) ("" +:+ nl)
           [Sample.diagn_row; "EmisCO CO 0 -1 -1 2 kg/m2/s" +:+ nl]);
    reflexivity.
Defined.
